(** * Hand-teleop client pipeline: fingertip mapping, camera lifecycle, live channel

    Shallow embedding of the event handlers of

    - [app/components/HandTeleopWidget.tsx]  (module [Widget]),
    - [app/routes/projects.hand-teleop.tsx]  (module [Route], with
      [Route.Detect] and [Route.Track] for the two revisions of the route
      that call the hand detection backend),
    - [docs/frontend-integration-example.tsx] (module [Integration]).

    Conventions.  A JavaScript [number] that carries a coordinate is a real
    number ([R]): the arithmetic of the handlers is read as exact arithmetic,
    rounding of binary64 is not modelled.  Counters and pixel sizes of DOM
    elements are integers.  A React component is a record holding its
    [useState] cells and its [useRef] cells; a handler is a function from the
    record it runs on to the record it leaves behind, every value coming
    from the browser (clock, random draws, network replies, DOM events)
    being an explicit argument.

    Closures.  A handler the browser runs on a click is the one of the
    latest render, and reads the cells of the record it is given.  A callback
    that is kept and run later (the listener handed to MediaPipe, the frame
    callback of the camera helper, the frame loop of the route) is the one of
    the render that created it: the [useState] values it closed over are
    explicit arguments of its definition, named after the cells, while the
    refs it reads are those of the record it runs on.  In the widget, the
    Hands object and the camera helper record the value their callback
    closed over.  The handlers of the sockets and timeouts of the live
    channel close over no [useState] value. *)

From stdpp Require Import base gmap list strings pretty.
From Stdlib Require Import Reals Lra Lia ZArith NArith.

(** ** Shared data *)

(** [{ x: number; y: number; z: number }] *)
Module Point.
Record t : Type := mk { x : R; y : R; z : R }.
End Point.

(** ['Open' | 'Closed'] *)
Inductive Gripper : Type := Open | Closed.

(** [a || d] on a DOM size (an unsigned integer): [0] is the only falsy one. *)
Definition orDefault (a d : N) : N := if (a =? 0)%N then d else a.

(** A DOM size used as a [number]. *)
Definition num (n : N) : R := IZR (Z.of_N n).

(** [Math.round]: the integer nearest to [v], halves going up. *)
Definition Math_round (v : R) : Z := Int_part (v + / 2).

(** ** HandTeleopWidget.tsx *)

Module Widget.
Local Open Scope R_scope.

(** [interface RobotMapping] *)
Module RobotMapping.
Record t : Type := mk { x : R; y : R; z : R; gripper : Gripper }.
End RobotMapping.

(** [interface FingertipData] *)
Record FingertipData : Type := mkFingertipData {
  thumb : option Point.t;
  indexPip : option Point.t;
  indexTip : option Point.t
}.

(** The overlay canvas: its pixel size, whether [getContext('2d')] yields a
    context, and what is painted on it (nothing, or one set of fingertip
    markers). *)
Record Canvas : Type := mkCanvas {
  width : N;
  height : N;
  has2d : bool;
  painted : option FingertipData
}.

(** The video element, as far as the handlers read it. *)
Record Video : Type := mkVideo { videoWidth : N; videoHeight : N }.

(** The [window.Camera] helper object: whether it is running, and the
    [isTracking] its [onFrame] callback closed over. *)
Record Camera : Type := mkCamera {
  running : bool;
  onFrame_isTracking : bool
}.

(** The [window.Hands] object: the [isTracking] closed over by the
    [onResults] it was handed as its listener. *)
Record Hands : Type := mkHands { onResults_isTracking : bool }.

(** Argument of the [onResults] callback. *)
Record Results : Type := mkResults {
  multiHandLandmarks : option (list (list Point.t))
}.

(** [useState] cells, then [useRef] cells. *)
Record State : Type := mkState {
  isTracking : bool;
  isLoading : bool;
  fingertips : FingertipData;
  robotMapping : RobotMapping.t;
  fps : Z;
  status : string;
  handsRef : option Hands;
  cameraRef : option Camera;
  frameCountRef : Z;
  lastTimeRef : R;
  videoRef : option Video;
  canvasRef : option Canvas
}.

Definition noFingertips : FingertipData :=
  {| thumb := None; indexPip := None; indexTip := None |}.

Definition neutral : RobotMapping.t :=
  {| RobotMapping.x := 0; RobotMapping.y := 0; RobotMapping.z := 0;
     RobotMapping.gripper := Open |}.

(** The component as mounted: the initial values of the hooks, the two
    elements attached to their refs (a canvas starts at 300 x 150). *)
Definition init : State :=
  {| isTracking := false; isLoading := false;
     fingertips := noFingertips; robotMapping := neutral;
     fps := 0; status := "Ready to start tracking";
     handsRef := None; cameraRef := None;
     frameCountRef := 0; lastTimeRef := 0;
     videoRef := Some {| videoWidth := 0; videoHeight := 0 |};
     canvasRef := Some {| width := 300; height := 150; has2d := true;
                          painted := None |} |}.

(** *** Setters *)

Definition setIsTracking (b : bool) (s : State) : State :=
  mkState b (isLoading s) (fingertips s) (robotMapping s) (fps s) (status s)
          (handsRef s) (cameraRef s) (frameCountRef s) (lastTimeRef s)
          (videoRef s) (canvasRef s).

Definition setIsLoading (b : bool) (s : State) : State :=
  mkState (isTracking s) b (fingertips s) (robotMapping s) (fps s) (status s)
          (handsRef s) (cameraRef s) (frameCountRef s) (lastTimeRef s)
          (videoRef s) (canvasRef s).

Definition setFingertips (f : FingertipData) (s : State) : State :=
  mkState (isTracking s) (isLoading s) f (robotMapping s) (fps s) (status s)
          (handsRef s) (cameraRef s) (frameCountRef s) (lastTimeRef s)
          (videoRef s) (canvasRef s).

Definition setRobotMapping (m : RobotMapping.t) (s : State) : State :=
  mkState (isTracking s) (isLoading s) (fingertips s) m (fps s) (status s)
          (handsRef s) (cameraRef s) (frameCountRef s) (lastTimeRef s)
          (videoRef s) (canvasRef s).

Definition setFps (n : Z) (s : State) : State :=
  mkState (isTracking s) (isLoading s) (fingertips s) (robotMapping s) n
          (status s) (handsRef s) (cameraRef s) (frameCountRef s)
          (lastTimeRef s) (videoRef s) (canvasRef s).

Definition setStatus (t : string) (s : State) : State :=
  mkState (isTracking s) (isLoading s) (fingertips s) (robotMapping s) (fps s)
          t (handsRef s) (cameraRef s) (frameCountRef s) (lastTimeRef s)
          (videoRef s) (canvasRef s).

Definition setHandsRef (h : option Hands) (s : State) : State :=
  mkState (isTracking s) (isLoading s) (fingertips s) (robotMapping s) (fps s)
          (status s) h (cameraRef s) (frameCountRef s) (lastTimeRef s)
          (videoRef s) (canvasRef s).

Definition setCameraRef (c : option Camera) (s : State) : State :=
  mkState (isTracking s) (isLoading s) (fingertips s) (robotMapping s) (fps s)
          (status s) (handsRef s) c (frameCountRef s) (lastTimeRef s)
          (videoRef s) (canvasRef s).

Definition setFrameCountRef (n : Z) (s : State) : State :=
  mkState (isTracking s) (isLoading s) (fingertips s) (robotMapping s) (fps s)
          (status s) (handsRef s) (cameraRef s) n (lastTimeRef s) (videoRef s)
          (canvasRef s).

Definition setLastTimeRef (t : R) (s : State) : State :=
  mkState (isTracking s) (isLoading s) (fingertips s) (robotMapping s) (fps s)
          (status s) (handsRef s) (cameraRef s) (frameCountRef s) t
          (videoRef s) (canvasRef s).

Definition setCanvasRef (c : option Canvas) (s : State) : State :=
  mkState (isTracking s) (isLoading s) (fingertips s) (robotMapping s) (fps s)
          (status s) (handsRef s) (cameraRef s) (frameCountRef s)
          (lastTimeRef s) (videoRef s) c.

(** *** Drawing *)

(** [ctx.clearRect(0, 0, canvas.width, canvas.height)] *)
Definition clearRect (c : Canvas) : Canvas :=
  mkCanvas (width c) (height c) (has2d c) None.

(** [drawFingertips]: paints the three markers, or nothing when one of the
    three points is missing. *)
Definition drawFingertips (data : FingertipData) (c : Canvas) : Canvas :=
  match thumb data, indexPip data, indexTip data with
  | Some _, Some _, Some _ =>
      mkCanvas (width c) (height c) (has2d c) (Some data)
  | _, _, _ => c
  end.

(** *** Robot mapping *)

(** The local [distance] of [updateRobotMapping]:
    [Math.sqrt(Math.pow(thumb.x - indexTip.x, 2) +
               Math.pow(thumb.y - indexTip.y, 2))]. *)
Definition distance (th it : Point.t) : R :=
  sqrt ((Point.x th - Point.x it) ^ 2 + (Point.y th - Point.y it) ^ 2).

Definition updateRobotMapping (data : FingertipData) (w h : R) (s : State)
  : State :=
  match thumb data, indexTip data with
  | Some th, Some it =>
      let x := ((Point.x it / w) - 0.5) * 2 in
      let y := ((Point.y it / h) - 0.5) * -2 in
      let z := Rmax 0 (Point.z it * 2) in
      let gripper := if Rlt_dec (distance th it) 50 then Closed else Open in
      setRobotMapping (RobotMapping.mk x y z gripper) s
  | _, _ => s
  end.

(** *** Frame rate *)

(** [updateFPS], [now] being the reading of [performance.now()]. *)
Definition updateFPS (now : R) (s : State) : State :=
  let s1 := setFrameCountRef (frameCountRef s + 1) s in
  if Rle_dec 1000 (now - lastTimeRef s1) then
    let newFps :=
      Math_round (IZR (frameCountRef s1) * 1000 / (now - lastTimeRef s1)) in
    setLastTimeRef now (setFrameCountRef 0 (setFps newFps s1))
  else s1.

(** *** Frame processing *)

(** How a handler ends: it returns, or a [TypeError] escapes it; either way
    with the state it has reached. *)
Inductive Completion : Type :=
| Returned (s : State)
| Thrown (s : State).

(** [results.multiHandLandmarks && results.multiHandLandmarks.length > 0],
    and then [results.multiHandLandmarks[0]]. *)
Definition firstHand (results : Results) : option (list Point.t) :=
  match multiHandLandmarks results with
  | Some (landmarks :: _) => Some landmarks
  | _ => None
  end.

(** [videoRef.current?.videoWidth || 640] and
    [videoRef.current?.videoHeight || 480]. *)
Definition frameWidth (s : State) : N :=
  orDefault (from_option videoWidth 0%N (videoRef s)) 640.

Definition frameHeight (s : State) : N :=
  orDefault (from_option videoHeight 0%N (videoRef s)) 480.

(** [{ x: p.x * w, y: p.y * h, z: p.z }] *)
Definition toPixels (w h : N) (p : Point.t) : Point.t :=
  Point.mk (Point.x p * num w) (Point.y p * num h) (Point.z p).

(** [onResults] as created by a render in which the cell [isTracking] holds
    the value given first: the guard tests the value the callback closed
    over. *)
Definition onResults (isTracking : bool) (results : Results) (now : R)
           (s : State) : Completion :=
  if negb isTracking then Returned s else
  match canvasRef s with
  | None => Returned s
  | Some canvas =>
      if negb (has2d canvas) then Returned s else
      let w := frameWidth s in
      let h := frameHeight s in
      let canvas := clearRect (mkCanvas w h (has2d canvas) (painted canvas)) in
      match firstHand results with
      | Some landmarks =>
          match landmarks !! 4%nat, landmarks !! 6%nat, landmarks !! 8%nat
          with
          | Some thumbTip, Some indexPip, Some indexTip =>
              let newFingertips :=
                {| thumb := Some (toPixels w h thumbTip);
                   indexPip := Some (toPixels w h indexPip);
                   indexTip := Some (toPixels w h indexTip) |} in
              let s := setFingertips newFingertips s in
              let s :=
                setCanvasRef (Some (drawFingertips newFingertips canvas)) s in
              let s := updateRobotMapping newFingertips (num w) (num h) s in
              Returned (updateFPS now s)
          | _, _, _ => Thrown (setCanvasRef (Some canvas) s)
          end
      | None =>
          let s := setCanvasRef (Some canvas) s in
          let s := setFingertips noFingertips s in
          Returned (updateFPS now s)
      end
  end.

(** When [onResults] gets past its guards and processes the frame: it
    closed over [isTracking = true] and the canvas yields a 2d context. *)
Definition processes (isTracking : bool) (s : State) : Prop :=
  isTracking = true /\
  exists canvas, canvasRef s = Some canvas /\ has2d canvas = true.

(** The ranges stated beside the three coordinates of the mapping. *)
Definition inStatedRanges (m : RobotMapping.t) : Prop :=
  -1 <= RobotMapping.x m <= 1 /\
  -1 <= RobotMapping.y m <= 1 /\
  0 <= RobotMapping.z m <= 2.

(** *** Start and stop *)

(** What the two awaited calls of [startTracking] can do. *)
Inductive StartOutcome : Type :=
| MediaPipeNotLoaded   (* initializeMediaPipe throws *)
| CameraStartRejected  (* cameraRef.current.start() rejects *)
| CameraStarted.

(** [initializeMediaPipe], past its guard, as created by a render in which
    [isTracking] holds the value given first: the Hands object is made and
    handed the [onResults] of that render; a camera helper is created when
    the video element is there, its [onFrame] closing over the same
    [isTracking]. *)
Definition initializeMediaPipe (isTracking : bool) (s : State) : State :=
  let s := setHandsRef (Some (mkHands isTracking)) s in
  match videoRef s with
  | Some _ => setCameraRef (Some (mkCamera false isTracking)) s
  | None => s
  end.

(** [startTracking], run by a click: it is the one of the render that shows
    [s], and so is the [initializeMediaPipe] it calls. *)
Definition startTracking (o : StartOutcome) (now : R) (s : State) : State :=
  let initializeMediaPipe := initializeMediaPipe (isTracking s) in
  let s := setStatus "Initializing hand tracking..." (setIsLoading true s) in
  let failed s :=
    setIsLoading false (setStatus "Failed to start camera or MediaPipe" s) in
  match o with
  | MediaPipeNotLoaded => failed s
  | CameraStartRejected => failed (initializeMediaPipe s)
  | CameraStarted =>
      let s := initializeMediaPipe s in
      let s := setCameraRef
                 (option_map (fun c => mkCamera true (onFrame_isTracking c))
                             (cameraRef s)) s in
      let s := setStatus "Hand tracking active" (setIsTracking true s) in
      setIsLoading false (setLastTimeRef now (setFrameCountRef 0 s))
  end.

Definition stopTracking (s : State) : State :=
  let s := setIsTracking false s in
  let s := setCameraRef
             (option_map (fun c => mkCamera false (onFrame_isTracking c))
                         (cameraRef s)) s in
  let s := setCanvasRef
             (option_map (fun c => if has2d c then clearRect c else c)
                         (canvasRef s)) s in
  let s := setFingertips noFingertips s in
  let s := setRobotMapping neutral s in
  let s := setFps 0 s in
  setStatus "Tracking stopped" s.

Definition toggleTracking (o : StartOutcome) (now : R) (s : State) : State :=
  if isTracking s then stopTracking s else startTracking o now s.

(** A run of results handed to one and the same [onResults], stopping at
    the first one that throws. *)
Fixpoint frames (isTracking : bool) (fs : list (Results * R)) (s : State)
  : Completion :=
  match fs with
  | [] => Returned s
  | (results, now) :: fs =>
      match onResults isTracking results now s with
      | Returned s' => frames isTracking fs s'
      | Thrown s' => Thrown s'
      end
  end.

(** *** The mounted widget *)

(** A frame of the running camera: the helper calls its [onFrame], which
    sends the image to the Hands object when the [isTracking] it closed over
    holds; the Hands object then calls its listener with the [results]. *)
Definition cameraFrame (results : Results) (now : R) (s : State)
  : Completion :=
  match cameraRef s, handsRef s with
  | Some camera, Some hands =>
      if running camera && onFrame_isTracking camera
      then onResults (onResults_isTracking hands) results now s
      else Returned s
  | _, _ => Returned s
  end.

(** What happens to the mounted widget: a click on its button (disabled
    while loading), with what the start it may trigger meets, or a frame of
    the camera.  An error thrown by the listener leaves the state reached. *)
Inductive Event : Type :=
| Click (o : StartOutcome) (now : R)
| CameraFrame (results : Results) (now : R).

Definition step (e : Event) (s : State) : State :=
  match e with
  | Click o now => if isLoading s then s else toggleTracking o now s
  | CameraFrame results now =>
      match cameraFrame results now s with
      | Returned s' => s'
      | Thrown s' => s'
      end
  end.

Definition run (es : list Event) (s : State) : State :=
  fold_left (fun s e => step e s) es s.

End Widget.

(** ** projects.hand-teleop.tsx

    The route exists in two revisions that share their state and their camera
    handlers and differ in [processHandTracking]: the first posts the frame
    to [/detect_hands] (module [Route.Detect]), the second to [/track]
    (module [Route.Track]). *)

Module Route.

(** [interface FingertipData] *)
Record FingertipData : Type := mkFingertipData {
  thumb : option Point.t;
  indexPip : option Point.t;
  indexTip : option Point.t;
  timestamp : Z
}.

Record Orientation : Type := mkOrientation { roll : R; pitch : R; yaw : R }.

Record Pose : Type := mkPose { position : Point.t; orientation : Orientation }.

(** ['open' | 'closed'] *)
Inductive GripperState : Type := gripper_open | gripper_closed.

(** [interface RobotState] *)
Record RobotState : Type := mkRobotState {
  jointAngles : list R;
  endEffectorPose : Pose;
  gripperState : GripperState;
  inWorkspace : bool;
  confidence : R
}.

(** The video element: the stream attached to it (a handle into [streams]),
    its ready state and its intrinsic size. *)
Record Video : Type := mkVideo {
  srcObject : option nat;
  readyState : N;
  videoWidth : N;
  videoHeight : N
}.

(** The overlay canvas; [painted] holds the landmarks drawn on it. *)
Record Canvas : Type := mkCanvas {
  width : N;
  height : N;
  has2d : bool;
  painted : option (list Point.t)
}.

(** [useState] cells read or written by the handlers below, [useRef] cells,
    and the part of the browser they point into: the media streams (each a
    list of tracks, [true] for a live one) and the animation frames
    requested and not yet run. *)
Record State : Type := mkState {
  selectedRobot : string;
  selectedModel : string;
  isConnected : bool;
  isCameraActive : bool;
  isTracking : bool;
  consoleLogs : list string;
  fingertipData : FingertipData;
  robotState : RobotState;
  videoRef : option Video;
  canvasRef : option Canvas;
  streamRef : option nat;
  animationRef : option positive;
  streams : gmap nat (list bool);
  frameRequests : gset positive
}.

Definition noFingertips (now : Z) : FingertipData :=
  {| thumb := None; indexPip := None; indexTip := None; timestamp := now |}.

Definition restPose : Pose :=
  {| position := Point.mk 0 0 0; orientation := mkOrientation 0 0 0 |}.

Definition restAngles : list R := [0; 0; 0; 0; 0; 0]%R.

Definition init : State :=
  {| selectedRobot := "ur5e"; selectedModel := "mediapipe";
     isConnected := false; isCameraActive := false; isTracking := false;
     consoleLogs := [];
     fingertipData := noFingertips 0;
     robotState := {| jointAngles := restAngles; endEffectorPose := restPose;
                      gripperState := gripper_open; inWorkspace := true;
                      confidence := 0 |};
     videoRef := Some {| srcObject := None; readyState := 0;
                         videoWidth := 0; videoHeight := 0 |};
     canvasRef := Some {| width := 300; height := 150; has2d := true;
                          painted := None |};
     streamRef := None; animationRef := None;
     streams := ∅; frameRequests := ∅ |}.

(** *** Setters *)

Definition setIsConnected (b : bool) (s : State) : State :=
  mkState (selectedRobot s) (selectedModel s) b (isCameraActive s)
          (isTracking s) (consoleLogs s) (fingertipData s) (robotState s)
          (videoRef s) (canvasRef s) (streamRef s) (animationRef s)
          (streams s) (frameRequests s).

Definition setIsCameraActive (b : bool) (s : State) : State :=
  mkState (selectedRobot s) (selectedModel s) (isConnected s) b
          (isTracking s) (consoleLogs s) (fingertipData s) (robotState s)
          (videoRef s) (canvasRef s) (streamRef s) (animationRef s)
          (streams s) (frameRequests s).

Definition setIsTracking (b : bool) (s : State) : State :=
  mkState (selectedRobot s) (selectedModel s) (isConnected s)
          (isCameraActive s) b (consoleLogs s) (fingertipData s)
          (robotState s) (videoRef s) (canvasRef s) (streamRef s)
          (animationRef s) (streams s) (frameRequests s).

Definition setConsoleLogs (l : list string) (s : State) : State :=
  mkState (selectedRobot s) (selectedModel s) (isConnected s)
          (isCameraActive s) (isTracking s) l (fingertipData s)
          (robotState s) (videoRef s) (canvasRef s) (streamRef s)
          (animationRef s) (streams s) (frameRequests s).

Definition setFingertipData (f : FingertipData) (s : State) : State :=
  mkState (selectedRobot s) (selectedModel s) (isConnected s)
          (isCameraActive s) (isTracking s) (consoleLogs s) f
          (robotState s) (videoRef s) (canvasRef s) (streamRef s)
          (animationRef s) (streams s) (frameRequests s).

Definition setRobotState (r : RobotState) (s : State) : State :=
  mkState (selectedRobot s) (selectedModel s) (isConnected s)
          (isCameraActive s) (isTracking s) (consoleLogs s)
          (fingertipData s) r (videoRef s) (canvasRef s) (streamRef s)
          (animationRef s) (streams s) (frameRequests s).

Definition setVideoRef (v : option Video) (s : State) : State :=
  mkState (selectedRobot s) (selectedModel s) (isConnected s)
          (isCameraActive s) (isTracking s) (consoleLogs s)
          (fingertipData s) (robotState s) v (canvasRef s) (streamRef s)
          (animationRef s) (streams s) (frameRequests s).

Definition setCanvasRef (c : option Canvas) (s : State) : State :=
  mkState (selectedRobot s) (selectedModel s) (isConnected s)
          (isCameraActive s) (isTracking s) (consoleLogs s)
          (fingertipData s) (robotState s) (videoRef s) c (streamRef s)
          (animationRef s) (streams s) (frameRequests s).

Definition setStreamRef (p : option nat) (s : State) : State :=
  mkState (selectedRobot s) (selectedModel s) (isConnected s)
          (isCameraActive s) (isTracking s) (consoleLogs s)
          (fingertipData s) (robotState s) (videoRef s) (canvasRef s) p
          (animationRef s) (streams s) (frameRequests s).

Definition setAnimationRef (a : option positive) (s : State) : State :=
  mkState (selectedRobot s) (selectedModel s) (isConnected s)
          (isCameraActive s) (isTracking s) (consoleLogs s)
          (fingertipData s) (robotState s) (videoRef s) (canvasRef s)
          (streamRef s) a (streams s) (frameRequests s).

Definition setStreams (m : gmap nat (list bool)) (s : State) : State :=
  mkState (selectedRobot s) (selectedModel s) (isConnected s)
          (isCameraActive s) (isTracking s) (consoleLogs s)
          (fingertipData s) (robotState s) (videoRef s) (canvasRef s)
          (streamRef s) (animationRef s) m (frameRequests s).

Definition setFrameRequests (q : gset positive) (s : State) : State :=
  mkState (selectedRobot s) (selectedModel s) (isConnected s)
          (isCameraActive s) (isTracking s) (consoleLogs s)
          (fingertipData s) (robotState s) (videoRef s) (canvasRef s)
          (streamRef s) (animationRef s) (streams s) q.

(** *** Console *)

(** [addToConsole], [timestamp] being [new Date().toLocaleTimeString()]:
    the new line goes first and the 50 most recent lines are kept. *)
Definition addToConsole (timestamp message : string) (s : State) : State :=
  setConsoleLogs
    (take 50 (("[" +:+ timestamp +:+ "] " +:+ message) :: consoleLogs s)) s.

(** *** Robot connection *)

(** What the [/connect] request meets: a reply that is OK, with its
    [message] and [robot_state] members if it has them (and they are not
    falsy), one that is not, or a failure of the request. *)
Inductive ConnectReply : Type :=
| ConnectOk (message : option string) (robot_state : option RobotState)
| ConnectNotOk (message : option string)
| ConnectThrew.

(** [connectToRobot], up to the polling it starts; [t1] and [t2] are the
    clock readings of its two log lines. *)
Definition connectToRobot (reply : ConnectReply) (t1 t2 : string) (s : State)
  : State :=
  let s := addToConsole t1 ("Connecting to robot: " +:+ selectedRobot s) s in
  match reply with
  | ConnectOk message robot_state =>
      let s := setIsConnected true s in
      let s := addToConsole t2
                 ("Robot connected successfully: "
                  +:+ default "Connected" message) s in
      match robot_state with
      | Some robotData => setRobotState robotData s
      | None => s
      end
  | ConnectNotOk message =>
      addToConsole t2
        ("Failed to connect to robot: " +:+ default "Unknown error" message) s
  | ConnectThrew =>
      addToConsole t2 "Connection error - check if backend is running" s
  end.

(** *** Camera and tracking lifecycle *)

(** What [getUserMedia] does: it resolves with a fresh stream of live
    tracks, or rejects (with the message of the error, if it is an
    [Error]). *)
Inductive MediaOutcome : Type :=
| Granted (tracks : nat)
| Rejected (message : option string).

(** [startCamera], up to the timer it sets for the automatic start of the
    tracking. *)
Definition startCamera (o : MediaOutcome) (timestamp : string) (s : State)
  : State :=
  match o with
  | Granted tracks =>
      match videoRef s with
      | Some video =>
          let stream := fresh (dom (streams s)) in
          let s := setStreams (<[stream := replicate tracks true]> (streams s)) s in
          let s := setVideoRef
                     (Some (mkVideo (Some stream) (readyState video)
                                    (videoWidth video) (videoHeight video))) s in
          let s := setStreamRef (Some stream) s in
          let s := addToConsole timestamp "Camera started successfully" s in
          setIsCameraActive true s
      | None => setStreams (<[fresh (dom (streams s)) := replicate tracks true]>
                              (streams s)) s
      end
  | Rejected message =>
      addToConsole timestamp
        ("Camera error: " +:+ default "Unknown error" message) s
  end.

(** [stopTracking] *)
Definition stopTracking (timestamp : string) (s : State) : State :=
  let s := setIsTracking false s in
  let s := addToConsole timestamp "Hand tracking stopped" s in
  match animationRef s with
  | Some handle => setFrameRequests (frameRequests s ∖ {[ handle ]}) s
  | None => s
  end.

(** [stopCamera]; [t1] is the clock reading used by the nested
    [stopTracking], [t2] the one used by its own log line. *)
Definition stopCamera (t1 t2 : string) (s : State) : State :=
  let s := if isTracking s then stopTracking t1 s else s in
  let s :=
    match streamRef s with
    | Some stream =>
        setStreamRef None
          (setStreams (alter (fmap (fun _ => false)) stream (streams s)) s)
    | None => s
    end in
  let s :=
    match videoRef s with
    | Some video =>
        setVideoRef (Some (mkVideo None (readyState video)
                                   (videoWidth video) (videoHeight video))) s
    | None => s
    end in
  let s := setIsCameraActive false s in
  addToConsole t2 "Camera stopped" s.

(** The camera is stopped: not active, not tracking, no stream held by the
    ref or by the video element. *)
Definition stopped (s : State) : bool :=
  negb (isCameraActive s) && negb (isTracking s)
  && bool_decide (streamRef s = None)
  && bool_decide (videoRef s ≫= srcObject = None).

(** *** Drawing *)

Definition clearRect (c : Canvas) : Canvas :=
  mkCanvas (width c) (height c) (has2d c) None.

(** [drawHandLandmarks]: clears, then draws every landmark. *)
Definition drawHandLandmarks (landmarks : list Point.t) (c : Canvas) : Canvas :=
  mkCanvas (width c) (height c) (has2d c) (Some landmarks).

Definition onCanvas (f : Canvas -> Canvas) (s : State) : State :=
  setCanvasRef (f <$> canvasRef s) s.

(** *** The synchronous part of [processHandTracking]

    It is the same in both revisions: the guards, the resizing of the
    canvas, the hand-over of the captured frame to the reply handler, and
    the request for the next animation frame.  [frameSent] tells whether
    the reply handler was handed a frame.

    The function is the one created by a render in which the cells
    [isCameraActive] and [isTracking] hold the two values given first: its
    first guard and its last test read the values it closed over.  The
    callback it requests the next animation frame for is itself. *)
Definition processHandTracking (isCameraActive isTracking : bool) (s : State)
  : State * bool :=
  if negb isCameraActive then (s, false) else
  match videoRef s, canvasRef s with
  | Some video, Some canvas =>
      if negb (has2d canvas) then (s, false) else
      let w := orDefault (videoWidth video) 640 in
      let h := orDefault (videoHeight video) 480 in
      (* assigning [canvas.width] resets the bitmap *)
      let s := setCanvasRef (Some (mkCanvas w h true None)) s in
      if isTracking then
        let handle := fresh (frameRequests s) in
        (setAnimationRef (Some handle)
           (setFrameRequests (frameRequests s ∪ {[ handle ]}) s), true)
      else (s, true)
  | _, _ => (s, false)
  end.

(** [startTracking], run by a click: it is the one of the render that shows
    [s], and so is the [processHandTracking] it ends with, which still sees
    the [isTracking] of before the click.  The result tells whether that
    call handed a frame to the reply handler. *)
Definition startTracking (timestamp : string) (s : State) : State * bool :=
  let processHandTracking :=
    processHandTracking (isCameraActive s) (isTracking s) in
  if negb (isCameraActive s) then
    (addToConsole timestamp "Camera not active - please start camera first" s,
     false)
  else
    processHandTracking
      (addToConsole timestamp
         ("Hand tracking started with model: " +:+ selectedModel s)
         (setIsTracking true s)).

(** *** First revision: [/detect_hands] *)

Module Detect.

(** One entry of [data.hands]. *)
Record Hand : Type := mkHand { landmarks : list Point.t }.

(** What the reply handler of a frame meets.  [Threw] stands for anything
    thrown inside its [try]: [fetch] rejecting, a body that is not JSON,
    a payload of the wrong shape.  [confidence] is the text of
    [(data.confidence || 0).toFixed(2)]; [control] is the body of the
    [/control_robot] reply when that request succeeds. *)
Inductive Reply : Type :=
| NoBlob
| Threw (message : option string)
| NotOk
| Ok (hands : list Hand) (confidence : string) (control : option RobotState).

(** [updateRobotFromHandData] *)
Definition updateRobotFromHandData (handData : FingertipData)
           (control : option RobotState) (s : State) : State :=
  match indexTip handData with
  | None => s
  | Some _ =>
      match control with
      | Some robotData => setRobotState robotData s
      | None => s
      end
  end.

(** The fallback of the [catch] clause; [random k] is the [k]-th draw of
    [Math.random()], the object literal drawing them left to right. *)
Definition simulatedData (random : nat -> R) (now : Z) : FingertipData :=
  {| thumb := Some (Point.mk (random 0%nat * 100) (random 1%nat * 100)
                             (random 2%nat * 100));
     indexPip := Some (Point.mk (random 3%nat * 100) (random 4%nat * 100)
                                (random 5%nat * 100));
     indexTip := Some (Point.mk (random 6%nat * 100) (random 7%nat * 100)
                                (random 8%nat * 100));
     timestamp := now |}.

(** Each coordinate is some [Math.random() * 100]. *)
Definition inSimulatedRange (p : Point.t) : Prop :=
  (0 <= Point.x p < 100 /\ 0 <= Point.y p < 100 /\ 0 <= Point.z p < 100)%R.

(** The callback given to [toBlob]; [now] is [Date.now()].  [isConnected]
    is read from the record: the one button that makes a frame be sent is
    enabled only while the cell is true, and nothing sets it back. *)
Definition onBlob (reply : Reply) (random : nat -> R) (now : Z)
           (clock : string) (s : State) : State :=
  match reply with
  | NoBlob => s
  | NotOk => s
  | Ok (hand :: _) confidence control =>
      let newFingertipData :=
        {| thumb := landmarks hand !! 4%nat;
           indexPip := landmarks hand !! 6%nat;
           indexTip := landmarks hand !! 8%nat;
           timestamp := now |} in
      let s := setFingertipData newFingertipData s in
      let s := onCanvas (drawHandLandmarks (landmarks hand)) s in
      let s := addToConsole clock
                 ("Hand detected: " +:+ pretty (length (landmarks hand))
                  +:+ " landmarks, confidence: " +:+ confidence) s in
      if isConnected s
      then updateRobotFromHandData newFingertipData control s
      else s
  | Ok [] _ _ =>
      setFingertipData (noFingertips now) (onCanvas clearRect s)
  | Threw message =>
      let s := addToConsole clock
                 ("API Error: " +:+ default "Unknown error" message) s in
      setFingertipData (simulatedData random now) s
  end.

(** One frame of the [processHandTracking] that closed over the two values
    given first: the synchronous part, then the reply handler if a frame
    was sent. *)
Definition frame (isCameraActive isTracking : bool) (reply : Reply)
           (random : nat -> R) (now : Z) (clock : string) (s : State)
  : State :=
  let '(s, frameSent) := processHandTracking isCameraActive isTracking s in
  if frameSent then onBlob reply random now clock s else s.

End Detect.

(** *** Second revision: [/track] *)

Module Track.

(** [data.fingertips] *)
Record Fingertips : Type := mkFingertips {
  thumb : option Point.t;
  index_pip : option Point.t;
  index_tip : option Point.t
}.

(** [data.robot_control]; a missing or falsy member is [None] (for the
    booleans and numbers, the value its [||] default gives). *)
Record RobotControl : Type := mkRobotControl {
  joint_angles : option (list R);
  end_effector_pose : option Pose;
  gripper_state : option GripperState;
  in_workspace : bool;
  confidence : R
}.

Record Data : Type := mkData {
  fingertips : option Fingertips;
  hand_detected : bool;
  robot_control : option RobotControl
}.

(** As in the first revision; [confidence] is the text of
    [data.robot_control?.confidence?.toFixed(2) || 0]. *)
Inductive Reply : Type :=
| NoBlob
| Threw (message : option string)
| NotOk
| Ok (data : Data) (confidence : string).

Definition toRobotState (c : RobotControl) : RobotState :=
  {| jointAngles := default restAngles (joint_angles c);
     endEffectorPose := default restPose (end_effector_pose c);
     gripperState := default gripper_open (gripper_state c);
     inWorkspace := in_workspace c;
     Route.confidence := confidence c |}.

(** The callback given to [toBlob]; [isConnected] is read from the record,
    as in the first revision. *)
Definition onBlob (reply : Reply) (now : Z) (clock : string) (s : State)
  : State :=
  match reply with
  | NoBlob => s
  | Ok data confidence =>
      match fingertips data with
      | Some tips =>
          let newFingertipData :=
            {| Route.thumb := thumb tips; indexPip := index_pip tips;
               indexTip := index_tip tips; timestamp := now |} in
          let s := setFingertipData newFingertipData s in
          let s :=
            if hand_detected data then
              let landmarks :=
                option_list (thumb tips) ++ option_list (index_pip tips)
                ++ option_list (index_tip tips) in
              let s := onCanvas (drawHandLandmarks landmarks) s in
              addToConsole clock
                ("Hand detected: " +:+ pretty (length landmarks)
                 +:+ " fingertips, confidence: " +:+ confidence) s
            else onCanvas clearRect s in
          match robot_control data with
          | Some c => if isConnected s then setRobotState (toRobotState c) s
                      else s
          | None => s
          end
      | None => s
      end
  | NotOk =>
      onCanvas clearRect (setFingertipData (noFingertips now) s)
  | Threw message =>
      let s := addToConsole clock
                 ("API Error: " +:+ default "Unknown error" message) s in
      setFingertipData (noFingertips now) (onCanvas clearRect s)
  end.

Definition frame (isCameraActive isTracking : bool) (reply : Reply)
           (now : Z) (clock : string) (s : State) : State :=
  let '(s, frameSent) := processHandTracking isCameraActive isTracking s in
  if frameSent then onBlob reply now clock s else s.

End Track.

End Route.

(** ** frontend-integration-example.tsx

    The component and the part of the browser its handlers act on: the
    [WebSocket] objects created so far with their ready state, the timeouts
    set and not yet run or cleared, the messages sent.  Every socket made by
    [connectWebSocket] carries the same four handlers for as long as it
    lives; nothing ever detaches them. *)

Module Integration.

(** [WebSocket.readyState] *)
Inductive ReadyState : Type := CONNECTING | OPEN | CLOSING | CLOSED.

Global Instance ReadyState_eq_dec : EqDecision ReadyState.
Proof. solve_decision. Defined.

(** Client to server messages. *)
Inductive ClientMessage : Type :=
| start_tracking (robot_type : string)
| stop_tracking
| ping.

(** What [onmessage] receives: text that [JSON.parse] rejects, or a
    message with its [type] and its [data] (kept as text). *)
Inductive Incoming : Type :=
| Malformed
| Message (type : string) (data : string).

Record State : Type := mkState {
  (* useState *)
  isConnected : bool;
  isTracking : bool;
  robotType : string;
  trackingData : option string;
  connectionStatus : string;
  (* useRef *)
  wsRef : option nat;
  reconnectTimeoutRef : option positive;
  (* browser *)
  sockets : gmap nat ReadyState;
  timers : gmap positive N;      (* handle of a pending timeout, time due *)
  nextTimer : positive;
  sent : list (nat * ClientMessage)
}.

(** Timeout handles are positive numbers, so a stored handle is truthy. *)
Definition init : State :=
  {| isConnected := false; isTracking := false; robotType := "SO-101";
     trackingData := None; connectionStatus := "disconnected";
     wsRef := None; reconnectTimeoutRef := None;
     sockets := ∅; timers := ∅; nextTimer := 1; sent := [] |}.

Definition setIsConnected (b : bool) (s : State) : State :=
  mkState b (isTracking s) (robotType s) (trackingData s)
          (connectionStatus s) (wsRef s) (reconnectTimeoutRef s)
          (sockets s) (timers s) (nextTimer s) (sent s).

Definition setIsTracking (b : bool) (s : State) : State :=
  mkState (isConnected s) b (robotType s) (trackingData s)
          (connectionStatus s) (wsRef s) (reconnectTimeoutRef s)
          (sockets s) (timers s) (nextTimer s) (sent s).

Definition setTrackingData (d : option string) (s : State) : State :=
  mkState (isConnected s) (isTracking s) (robotType s) d
          (connectionStatus s) (wsRef s) (reconnectTimeoutRef s)
          (sockets s) (timers s) (nextTimer s) (sent s).

Definition setConnectionStatus (c : string) (s : State) : State :=
  mkState (isConnected s) (isTracking s) (robotType s) (trackingData s)
          c (wsRef s) (reconnectTimeoutRef s)
          (sockets s) (timers s) (nextTimer s) (sent s).

Definition setWsRef (w : option nat) (s : State) : State :=
  mkState (isConnected s) (isTracking s) (robotType s) (trackingData s)
          (connectionStatus s) w (reconnectTimeoutRef s)
          (sockets s) (timers s) (nextTimer s) (sent s).

Definition setReconnectTimeoutRef (t : option positive) (s : State) : State :=
  mkState (isConnected s) (isTracking s) (robotType s) (trackingData s)
          (connectionStatus s) (wsRef s) t
          (sockets s) (timers s) (nextTimer s) (sent s).

Definition setSockets (m : gmap nat ReadyState) (s : State) : State :=
  mkState (isConnected s) (isTracking s) (robotType s) (trackingData s)
          (connectionStatus s) (wsRef s) (reconnectTimeoutRef s)
          m (timers s) (nextTimer s) (sent s).

Definition setTimers (m : gmap positive N) (s : State) : State :=
  mkState (isConnected s) (isTracking s) (robotType s) (trackingData s)
          (connectionStatus s) (wsRef s) (reconnectTimeoutRef s)
          (sockets s) m (nextTimer s) (sent s).

Definition setNextTimer (n : positive) (s : State) : State :=
  mkState (isConnected s) (isTracking s) (robotType s) (trackingData s)
          (connectionStatus s) (wsRef s) (reconnectTimeoutRef s)
          (sockets s) (timers s) n (sent s).

Definition setSent (l : list (nat * ClientMessage)) (s : State) : State :=
  mkState (isConnected s) (isTracking s) (robotType s) (trackingData s)
          (connectionStatus s) (wsRef s) (reconnectTimeoutRef s)
          (sockets s) (timers s) (nextTimer s) l.

(** *** Browser primitives *)

(** [wsRef.current?.readyState === WebSocket.OPEN] *)
Definition currentIsOpen (s : State) : bool :=
  match wsRef s with
  | Some ws => bool_decide (sockets s !! ws = Some OPEN)
  | None => false
  end.

(** [setTimeout(callback, delay)] at time [now]: a fresh handle. *)
Definition setTimeout (delay now : N) (s : State) : positive * State :=
  let handle := nextTimer s in
  (handle,
   setNextTimer (Pos.succ handle)
     (setTimers (<[handle := (now + delay)%N]> (timers s)) s)).

(** [clearTimeout(handle)] *)
Definition clearTimeout (handle : positive) (s : State) : State :=
  setTimers (delete handle (timers s)) s.

(** [ws.close()]: a socket still connecting or open starts closing; its
    [close] event comes later. *)
Definition close (ws : nat) (s : State) : State :=
  match sockets s !! ws with
  | Some CONNECTING | Some OPEN => setSockets (<[ws := CLOSING]> (sockets s)) s
  | _ => s
  end.

(** [ws.send(message)] *)
Definition send (ws : nat) (m : ClientMessage) (s : State) : State :=
  setSent (sent s ++ [(ws, m)]) s.

(** *** Handlers *)

(** [connectWebSocket]; [throws] tells whether [new WebSocket] throws. *)
Definition connectWebSocket (throws : bool) (s : State) : State :=
  if currentIsOpen s then s
  else if throws then setConnectionStatus "error" s
  else
    let ws := fresh (dom (sockets s)) in
    setWsRef (Some ws) (setSockets (<[ws := CONNECTING]> (sockets s)) s).

Definition onopen (s : State) : State :=
  let s := setIsConnected true s in
  let s := setConnectionStatus "connected" s in
  match reconnectTimeoutRef s with
  | Some handle => setReconnectTimeoutRef None (clearTimeout handle s)
  | None => s
  end.

(** [handleWebSocketMessage] *)
Definition handleWebSocketMessage (type data : string) (s : State) : State :=
  if String.eqb type "tracking_result" then setTrackingData (Some data) s
  else s.

Definition onmessage (m : Incoming) (s : State) : State :=
  match m with
  | Malformed => s
  | Message type data => handleWebSocketMessage type data s
  end.

(** [onclose] at time [now]; the timeout it sets runs [connectWebSocket]. *)
Definition onclose (now : N) (s : State) : State :=
  let s := setIsConnected false s in
  let s := setIsTracking false s in
  let s := setConnectionStatus "disconnected" s in
  let '(handle, s) := setTimeout 3000 now s in
  setReconnectTimeoutRef (Some handle) s.

Definition onerror (s : State) : State := setConnectionStatus "error" s.

Definition disconnectWebSocket (s : State) : State :=
  let s :=
    match wsRef s with
    | Some ws => setWsRef None (close ws s)
    | None => s
    end in
  match reconnectTimeoutRef s with
  | Some handle => setReconnectTimeoutRef None (clearTimeout handle s)
  | None => s
  end.

Definition startTracking (throws : bool) (s : State) : State :=
  if negb (isConnected s) then connectWebSocket throws s
  else
    let s := setIsTracking true s in
    let s := setConnectionStatus "tracking" s in
    match wsRef s with
    | Some ws =>
        if currentIsOpen s then send ws (start_tracking (robotType s)) s else s
    | None => s
    end.

Definition stopTracking (s : State) : State :=
  let s := setIsTracking false s in
  let s := setConnectionStatus "connected" s in
  match wsRef s with
  | Some ws => if currentIsOpen s then send ws stop_tracking s else s
  | None => s
  end.

(** *** The event loop

    What can happen to the mounted component: a click on one of the
    buttons it renders, an event of one of its sockets, a timeout coming
    due.  [throws] is passed on to [connectWebSocket]. *)
Inductive Event : Type :=
| ClickConnect (throws : bool)
| ClickStartTracking (throws : bool)
| ClickStopTracking
| ClickDisconnect
| SocketOpen (ws : nat)
| SocketMessage (ws : nat) (m : Incoming)
| SocketError (ws : nat)
| SocketClose (ws : nat)
| TimerFires (handle : positive) (throws : bool).

(** The event [e] taking place at time [now]; [None] when it cannot take
    place in [s]: the button is not rendered, the socket is not in a state
    that raises the event, the timeout is not pending or not yet due. *)
Definition step (now : N) (e : Event) (s : State) : option State :=
  match e with
  | ClickConnect throws =>
      if isConnected s then None else Some (connectWebSocket throws s)
  | ClickStartTracking throws =>
      if isConnected s && negb (isTracking s)
      then Some (startTracking throws s) else None
  | ClickStopTracking =>
      if isConnected s && isTracking s then Some (stopTracking s) else None
  | ClickDisconnect => Some (disconnectWebSocket s)
  | SocketOpen ws =>
      match sockets s !! ws with
      | Some CONNECTING =>
          Some (onopen (setSockets (<[ws := OPEN]> (sockets s)) s))
      | _ => None
      end
  | SocketMessage ws m =>
      match sockets s !! ws with
      | Some OPEN => Some (onmessage m s)
      | _ => None
      end
  | SocketError ws =>
      match sockets s !! ws with
      | Some CONNECTING | Some OPEN | Some CLOSING => Some (onerror s)
      | _ => None
      end
  | SocketClose ws =>
      match sockets s !! ws with
      | Some CONNECTING | Some OPEN | Some CLOSING =>
          Some (onclose now (setSockets (<[ws := CLOSED]> (sockets s)) s))
      | _ => None
      end
  | TimerFires handle throws =>
      match timers s !! handle with
      | Some due =>
          if (due <=? now)%N
          then Some (connectWebSocket throws (clearTimeout handle s))
          else None
      | None => None
      end
  end.

(** A timed run: the events in order, each at its time, times not going
    backwards from [start]. *)
Fixpoint run (start : N) (es : list (N * Event)) (s : State) : option State :=
  match es with
  | [] => Some s
  | (now, e) :: es =>
      if (now <? start)%N then None
      else match step now e s with
           | Some s' => run now es s'
           | None => None
           end
  end.

(** The reconnect timeouts pending in [s]. *)
Definition pendingReconnects (s : State) : nat := size (timers s).

End Integration.


(** ** Scenarios

    Concrete inputs used by the examples further down. *)

Module Scenario.

(** The widget after a successful [startTracking] at time 0.  The video has
    not reported a size yet, so the frame is the 640 x 480 default. *)
Definition tracking : Widget.State :=
  Widget.startTracking Widget.CameraStarted 0 Widget.init.

Definition origin : Point.t := Point.mk 0 0 0.

(** A hand of 21 landmarks: thumb tip (index 4) at (0.5, 0.5, 0), index PIP
    (index 6) at (0.52, 0.3, 0), index tip (index 8) at (0.55, 0.2, 0), the
    rest at the origin. *)
Definition hand : list Point.t :=
  [origin; origin; origin; origin; Point.mk 0.5 0.5 0;
   origin; Point.mk 0.52 0.3 0;
   origin; Point.mk 0.55 0.2 0;
   origin; origin; origin; origin; origin; origin;
   origin; origin; origin; origin; origin; origin].

Definition handFrame : Widget.Results := Widget.mkResults (Some [hand]).

Definition emptyFrame : Widget.Results := Widget.mkResults (Some []).

(** A hand cut off after its first eight landmarks. *)
Definition shortHand : list Point.t :=
  [origin; origin; origin; origin; Point.mk 0.5 0.5 0;
   origin; Point.mk 0.52 0.3 0; origin].

Definition shortFrame : Widget.Results := Widget.mkResults (Some [shortHand]).

(** Every draw of [Math.random()] giving one half. *)
Definition halves : nat -> R := fun _ => (/ 2)%R.

(** The route with no robot connected and the camera granted (one video
    track). *)
Definition cameraOnly : Route.State :=
  Route.startCamera (Route.Granted 1) "10:00:00" Route.init.

(** The route with a robot connected and the camera granted: the button that
    starts the tracking is enabled. *)
Definition cameraOn : Route.State :=
  Route.startCamera (Route.Granted 1) "10:00:00"
    (Route.connectToRobot (Route.ConnectOk None None) "09:59:58" "09:59:59"
       Route.init).

(** Then the tracking started, its first frame handed over and the reply to
    it outstanding. *)
Definition live : Route.State := (Route.startTracking "10:00:01" cameraOn).1.

(** The channel opens, the user disconnects; the socket then reports its
    closing, the timeout set by that comes due three seconds later and the
    new socket opens.  Times in milliseconds. *)
Definition disconnectTrace : list (N * Integration.Event) :=
  [(0, Integration.ClickConnect false);
   (100, Integration.SocketOpen 0);
   (5000, Integration.ClickDisconnect);
   (5010, Integration.SocketClose 0);
   (8010, Integration.TimerFires 1 false);
   (8100, Integration.SocketOpen 1)]%N.

(** Two clicks on Connect while nothing answers, both sockets failing. *)
Definition doubleConnectTrace : list (N * Integration.Event) :=
  [(0, Integration.ClickConnect false);
   (50, Integration.ClickConnect false);
   (200, Integration.SocketClose 0);
   (300, Integration.SocketClose 1)]%N.

(** Then a third click, whose socket opens. *)
Definition reopenTrace : list (N * Integration.Event) :=
  doubleConnectTrace ++
  [(400, Integration.ClickConnect false);
   (500, Integration.SocketOpen 2)]%N.

(** The channel after [reopenTrace]: socket 2 open, timeout 1 still
    pending. *)
Definition reopened : Integration.State :=
  default Integration.init (Integration.run 0 reopenTrace Integration.init).

(** The channel after a Connect whose socket failed at once: socket 0
    closed, the reconnect timeout 1 pending. *)
Definition closedEarly : Integration.State :=
  default Integration.init
    (Integration.run 0 [(0, Integration.ClickConnect false);
                        (100, Integration.SocketClose 0)]%N Integration.init).

End Scenario.

(** ** Notions used in the statements *)

Module Notions.

(** A result whose detected hand, if any, has the landmarks [onResults]
    reads (indices 4, 6 and 8). *)
Definition complete (results : Widget.Results) : Prop :=
  match Widget.firstHand results with
  | Some landmarks => (8 < length landmarks)%nat
  | None => True
  end.

(** The widget shows no fingertips and the neutral mapping, and the
    callbacks kept by its Hands object and by its camera helper, if any,
    closed over [isTracking = false]. *)
Definition dormant (s : Widget.State) : Prop :=
  Widget.fingertips s = Widget.noFingertips /\
  Widget.robotMapping s = Widget.neutral /\
  from_option Widget.onResults_isTracking false (Widget.handsRef s) = false /\
  from_option Widget.onFrame_isTracking false (Widget.cameraRef s) = false.

(** The point [p] moved by [(dx, dy)] in the image plane, its depth replaced
    by [z]. *)
Definition moved (dx dy z : R) (p : Point.t) : Point.t :=
  Point.mk (Point.x p + dx) (Point.y p + dy) z.

(** The states of the channel the mounted component can get into. *)
Definition reachable (s : Integration.State) : Prop :=
  exists start es, Integration.run start es Integration.init = Some s.

(** Handles of timeouts are handed out in increasing order: every pending
    one is below the next one. *)
Definition timersBelowNext (s : Integration.State) : Prop :=
  forall handle due,
    Integration.timers s !! handle = Some due ->
    (handle < Integration.nextTimer s)%positive.

(** The flags of the channel agree with one another and with the sockets:
    tracking only while connected, the status "tracking" only while
    tracking, the ref on a socket that exists, connected only while some
    socket is open or closing. *)
Definition consistent (s : Integration.State) : Prop :=
  (Integration.isTracking s = true -> Integration.isConnected s = true) /\
  (Integration.connectionStatus s = "tracking" ->
   Integration.isTracking s = true) /\
  (forall ws, Integration.wsRef s = Some ws ->
              is_Some (Integration.sockets s !! ws)) /\
  (Integration.isConnected s = true ->
   exists ws, Integration.sockets s !! ws = Some Integration.OPEN \/
              Integration.sockets s !! ws = Some Integration.CLOSING).

(** The events that are not a click of the user. *)
Definition unattended (e : Integration.Event) : bool :=
  match e with
  | Integration.ClickConnect _ | Integration.ClickStartTracking _
  | Integration.ClickStopTracking | Integration.ClickDisconnect => false
  | _ => true
  end.

(** No track of any stream is live. *)
Definition noLiveTrack (s : Route.State) : Prop :=
  map_Forall (fun _ tracks => Forall (fun live => live = false) tracks)
             (Route.streams s).

End Notions.

(** * Properties *)

(** ** The widget *)

Section WidgetFacts.
Import Widget.
Local Open Scope R_scope.

Lemma robotMapping_updateRobotMapping th ip it w h s :
  robotMapping (updateRobotMapping (mkFingertipData (Some th) ip (Some it)) w h s)
  = RobotMapping.mk ((Point.x it / w - 0.5) * 2)
                    ((Point.y it / h - 0.5) * -2)
                    (Rmax 0 (Point.z it * 2))
                    (if Rlt_dec (distance th it) 50 then Closed else Open).
Proof. reflexivity. Qed.

Lemma updateRobotMapping_absent data w h s :
  thumb data = None \/ indexTip data = None ->
  updateRobotMapping data w h s = s.
Proof.
  unfold updateRobotMapping.
  intros [-> | Hi]; [reflexivity|].
  rewrite Hi. destruct (thumb data); reflexivity.
Qed.

Lemma distance_same_xy p zq :
  distance p (Point.mk (Point.x p) (Point.y p) zq) = 0.
Proof.
  unfold distance; cbn [Point.x Point.y].
  replace ((Point.x p - Point.x p) ^ 2 + (Point.y p - Point.y p) ^ 2) with 0
    by ring.
  apply sqrt_0.
Qed.

(** C2.  With thumb and indexTip present, the mapped gripper is [Closed]
    exactly when the Euclidean distance between the thumb and indexTip
    pixels in the image plane, the square root of the sum of the squared
    differences of their [x] and of their [y], is below 50 (that is, when
    that sum is below 2500), and [Open] exactly when it is not; when the two
    points share their pixel coordinates the distance is 0 and the gripper
    is [Closed]. *)
Theorem gripper_closed_iff_near th ip it w h s p zq :
  let m := robotMapping
             (updateRobotMapping (mkFingertipData (Some th) ip (Some it)) w h s) in
  let q := Point.mk (Point.x p) (Point.y p) zq in
  let m0 := robotMapping
              (updateRobotMapping (mkFingertipData (Some p) ip (Some q)) w h s) in
  let d := sqrt ((Point.x th - Point.x it) ^ 2
                 + (Point.y th - Point.y it) ^ 2) in
  (RobotMapping.gripper m = Closed <-> d < 50) /\
  (RobotMapping.gripper m = Open <-> ~ d < 50) /\
  (RobotMapping.gripper m = Closed <->
   (Point.x th - Point.x it) ^ 2 + (Point.y th - Point.y it) ^ 2 < 2500) /\
  sqrt ((Point.x p - Point.x q) ^ 2 + (Point.y p - Point.y q) ^ 2) = 0 /\
  RobotMapping.gripper m0 = Closed.
Proof.
  cbv zeta. rewrite !robotMapping_updateRobotMapping.
  cbn [RobotMapping.gripper].
  rewrite distance_same_xy.
  change (distance th it)
    with (sqrt ((Point.x th - Point.x it) ^ 2 + (Point.y th - Point.y it) ^ 2)).
  set (a := (Point.x th - Point.x it) ^ 2 + (Point.y th - Point.y it) ^ 2).
  assert (Ha : 0 <= a).
  { unfold a. pose proof (pow2_ge_0 (Point.x th - Point.x it)).
    pose proof (pow2_ge_0 (Point.y th - Point.y it)). lra. }
  assert (Hsq : sqrt a < 50 <-> a < 2500).
  { split; intros H.
    - pose proof (sqrt_pos a). pose proof (sqrt_sqrt a Ha). nra.
    - replace 50 with (sqrt 2500).
      + apply sqrt_lt_1_alt. lra.
      + replace 2500 with (50 * 50) by lra. apply sqrt_square. lra. }
  split; [|split; [|split; [|split]]].
  - destruct (Rlt_dec (sqrt a) 50); split; intros; try trivial;
      try discriminate; contradiction.
  - destruct (Rlt_dec (sqrt a) 50); split; intros; try trivial;
      try discriminate; contradiction.
  - rewrite <- Hsq.
    destruct (Rlt_dec (sqrt a) 50); split; intros; try trivial;
      try discriminate; contradiction.
  - change (sqrt ((Point.x p - Point.x p) ^ 2 + (Point.y p - Point.y p) ^ 2) = 0).
    replace ((Point.x p - Point.x p) ^ 2 + (Point.y p - Point.y p) ^ 2) with 0
      by ring.
    apply sqrt_0.
  - destruct (Rlt_dec 0 50) as [_ | Hn]; [reflexivity | exfalso; apply Hn; lra].
Qed.

(** *** What the helpers of a frame leave alone *)

Lemma updateFPS_keeps now s :
  isTracking (updateFPS now s) = isTracking s /\
  fingertips (updateFPS now s) = fingertips s /\
  robotMapping (updateFPS now s) = robotMapping s /\
  canvasRef (updateFPS now s) = canvasRef s /\
  videoRef (updateFPS now s) = videoRef s.
Proof.
  unfold updateFPS.
  destruct (Rle_dec _ _); repeat split; reflexivity.
Qed.

Lemma updateRobotMapping_keeps data w h s :
  isTracking (updateRobotMapping data w h s) = isTracking s /\
  fingertips (updateRobotMapping data w h s) = fingertips s /\
  canvasRef (updateRobotMapping data w h s) = canvasRef s /\
  videoRef (updateRobotMapping data w h s) = videoRef s.
Proof.
  unfold updateRobotMapping.
  destruct (thumb data), (indexTip data); repeat split; reflexivity.
Qed.

Lemma has2d_drawFingertips data c : has2d (drawFingertips data c) = has2d c.
Proof.
  unfold drawFingertips.
  destruct (thumb data), (indexPip data), (indexTip data); reflexivity.
Qed.

(** A frame with a hand, handed to an [onResults] that processes it. *)
Lemma onResults_hand c results now s landmarks p4 p6 p8 :
  processes c s ->
  firstHand results = Some landmarks ->
  landmarks !! 4%nat = Some p4 ->
  landmarks !! 6%nat = Some p6 ->
  landmarks !! 8%nat = Some p8 ->
  let w := frameWidth s in
  let h := frameHeight s in
  exists s',
    onResults c results now s = Returned s' /\
    fingertips s' = mkFingertipData (Some (toPixels w h p4))
                      (Some (toPixels w h p6)) (Some (toPixels w h p8)) /\
    robotMapping s' =
      RobotMapping.mk
        ((Point.x (toPixels w h p8) / num w - 0.5) * 2)
        ((Point.y (toPixels w h p8) / num h - 0.5) * -2)
        (Rmax 0 (Point.z (toPixels w h p8) * 2))
        (if Rlt_dec (distance (toPixels w h p4) (toPixels w h p8)) 50
         then Closed else Open) /\
    processes c s' /\ videoRef s' = videoRef s.
Proof.
  intros (Htrack & canvas & Hcanvas & H2d) Hhand H4 H6 H8 w h.
  unfold onResults.
  rewrite Htrack, Hcanvas, H2d, Hhand, H4, H6, H8. cbn [negb].
  fold w h. eexists. split; [reflexivity|].
  destruct (updateFPS_keeps now
    (updateRobotMapping
       (mkFingertipData (Some (toPixels w h p4)) (Some (toPixels w h p6))
          (Some (toPixels w h p8))) (num w) (num h)
       (setCanvasRef
          (Some (drawFingertips
                   (mkFingertipData (Some (toPixels w h p4))
                      (Some (toPixels w h p6)) (Some (toPixels w h p8)))
                   (clearRect (mkCanvas w h true (painted canvas)))))
          (setFingertips
             (mkFingertipData (Some (toPixels w h p4))
                (Some (toPixels w h p6)) (Some (toPixels w h p8))) s))))
    as (E1 & E2 & E3 & E4 & E5).
  rewrite E2, E3.
  split; [reflexivity|]. split; [reflexivity|]. split; [|exact E5].
  unfold processes. rewrite E4. split; [reflexivity|].
  eexists. split; [reflexivity|]. apply has2d_drawFingertips.
Qed.

(** An [onResults] that does not get past its guards changes nothing. *)
Lemma onResults_guarded c results now s :
  ~ processes c s -> onResults c results now s = Returned s.
Proof.
  intros Hn. unfold onResults.
  destruct c; [|reflexivity]. cbn [negb].
  destruct (canvasRef s) as [canvas|] eqn:Hcanvas; [|reflexivity].
  destruct (has2d canvas) eqn:H2d; [|reflexivity].
  exfalso. apply Hn. split; [reflexivity|]. exists canvas. auto.
Qed.

Lemma processes_dec c s : processes c s \/ ~ processes c s.
Proof.
  unfold processes.
  destruct c; [|right; intros [H _]; discriminate].
  destruct (canvasRef s) as [canvas|]; [|right; intros (_ & c & H & _); discriminate].
  destruct (has2d canvas) eqn:H2d.
  - left. split; [reflexivity|]. exists canvas. auto.
  - right. intros (_ & c & H & H'). injection H as <-. congruence.
Qed.

Lemma processes_tracking : processes true Scenario.tracking.
Proof. split; [reflexivity|]. eexists. split; reflexivity. Qed.

(** *** Frame sizes *)

Lemma orDefault_positive a d : (0 < d)%N -> (0 < orDefault a d)%N.
Proof.
  intros Hd. unfold orDefault.
  destruct (N.eqb_spec a 0); lia.
Qed.

Lemma num_positive n : (0 < n)%N -> 0 < num n.
Proof. intros Hn. unfold num. apply IZR_lt. lia. Qed.

(** The frame [onResults] works with always has a positive size. *)
Lemma frame_size_positive s :
  0 < num (frameWidth s) /\ 0 < num (frameHeight s).
Proof.
  split; apply num_positive, orDefault_positive; lia.
Qed.

(** *** The 640 x 480 scenario *)

Lemma num_640 : num 640 = 640.
Proof. reflexivity. Qed.

Lemma num_480 : num 480 = 480.
Proof. reflexivity. Qed.

Lemma scenario_thumb_px :
  toPixels 640 480 (Point.mk 0.5 0.5 0) = Point.mk 320 240 0.
Proof.
  unfold toPixels; cbn [Point.x Point.y Point.z].
  rewrite num_640, num_480. f_equal; lra.
Qed.

Lemma scenario_indexPip_px :
  toPixels 640 480 (Point.mk 0.52 0.3 0) = Point.mk 332.8 144 0.
Proof.
  unfold toPixels; cbn [Point.x Point.y Point.z].
  rewrite num_640, num_480. f_equal; lra.
Qed.

Lemma scenario_indexTip_px z :
  toPixels 640 480 (Point.mk 0.55 0.2 z) = Point.mk 352 96 z.
Proof.
  unfold toPixels; cbn [Point.x Point.y Point.z].
  rewrite num_640, num_480. f_equal; lra.
Qed.

Lemma scenario_distance z1 z2 :
  distance (Point.mk 320 240 z1) (Point.mk 352 96 z2) = sqrt 21760.
Proof.
  unfold distance; cbn [Point.x Point.y]. f_equal. lra.
Qed.

Lemma sqrt_21760_bounds : 147.5 < sqrt 21760 < 147.6.
Proof.
  split.
  - rewrite <- (sqrt_square 147.5) at 1 by lra.
    apply sqrt_lt_1; lra.
  - rewrite <- (sqrt_square 147.6) at 1 by lra.
    apply sqrt_lt_1; lra.
Qed.

(** *** The mounted widget never leaves its neutral outputs *)

Lemma dormant_init : Notions.dormant init.
Proof. repeat split. Qed.

Lemma dormant_stopTracking s :
  Notions.dormant s -> Notions.dormant (stopTracking s).
Proof.
  destruct s as [tr lo f m rate st hands cam fc lt v c].
  intros (_ & _ & Hh & Hc).
  cbv [Notions.dormant handsRef cameraRef] in Hh, Hc.
  cbv [Notions.dormant stopTracking setStatus setFps setRobotMapping
       setFingertips setCanvasRef setCameraRef setIsTracking
       isTracking isLoading fingertips robotMapping fps status handsRef
       cameraRef frameCountRef lastTimeRef videoRef canvasRef].
  split; [reflexivity|]. split; [reflexivity|]. split; [exact Hh|].
  destruct cam; [exact Hc | reflexivity].
Qed.

Lemma dormant_startTracking o now s :
  isTracking s = false ->
  Notions.dormant s -> Notions.dormant (startTracking o now s).
Proof.
  destruct s as [tr lo f m rate st hands cam fc lt v c].
  intros Htr (Hf & Hm & Hh & Hc).
  cbv [isTracking] in Htr. subst tr.
  cbv [Notions.dormant fingertips robotMapping handsRef cameraRef]
    in Hf, Hm, Hh, Hc.
  destruct o, v as [video|], cam as [camera|];
    cbv [Notions.dormant startTracking initializeMediaPipe
         setIsTracking setIsLoading setStatus setHandsRef setCameraRef
         setFrameCountRef setLastTimeRef
         isTracking isLoading fingertips robotMapping fps status handsRef
         cameraRef frameCountRef lastTimeRef videoRef canvasRef
         option_map from_option onResults_isTracking onFrame_isTracking];
    repeat split; assumption.
Qed.

(** A frame of the camera changes nothing in such a state: [onFrame] does
    not send the image, and the listener would return at its first guard. *)
Lemma dormant_cameraFrame results now s :
  Notions.dormant s -> cameraFrame results now s = Returned s.
Proof.
  intros (_ & _ & Hh & Hc). unfold cameraFrame.
  destruct (cameraRef s) as [camera|]; [|reflexivity].
  destruct (handsRef s) as [hands|]; [|reflexivity].
  cbn [from_option] in Hh, Hc. rewrite Hc, andb_false_r. reflexivity.
Qed.

Lemma dormant_step e s : Notions.dormant s -> Notions.dormant (step e s).
Proof.
  intros Hd. destruct e as [o now | results now]; cbn [step].
  - destruct (isLoading s); [exact Hd|].
    unfold toggleTracking. destruct (isTracking s) eqn:Htr.
    + apply dormant_stopTracking, Hd.
    + apply dormant_startTracking; assumption.
  - rewrite dormant_cameraFrame by exact Hd. exact Hd.
Qed.

Lemma dormant_run es s : Notions.dormant s -> Notions.dormant (run es s).
Proof.
  revert s. induction es as [|e es IH]; intros s Hd; [exact Hd|].
  apply IH, dormant_step, Hd.
Qed.

(** For instance: the widget is started with success, and the camera then
    delivers the scenario frame, which shows a hand.  The widget is left as
    the start left it. *)
Lemma started_widget_ignores_frame :
  run [Click CameraStarted 0; CameraFrame Scenario.handFrame 16] init
  = Scenario.tracking.
Proof.
  change (run [Click CameraStarted 0; CameraFrame Scenario.handFrame 16] init)
    with (step (CameraFrame Scenario.handFrame 16) Scenario.tracking).
  cbn [step]. rewrite dormant_cameraFrame; [reflexivity|].
  apply (dormant_run [Click CameraStarted 0] init dormant_init).
Qed.


(** The branch of [onResults] that a frame without a hand takes, in an
    [onResults] that processes it: the fingertips are made absent, the
    mapping is left as it was. *)
Lemma onResults_no_hand c results now s :
  processes c s ->
  firstHand results = None ->
  exists s',
    onResults c results now s = Returned s' /\
    fingertips s' = noFingertips /\
    robotMapping s' = robotMapping s /\
    processes c s' /\ videoRef s' = videoRef s.
Proof.
  intros (Htrack & canvas & Hcanvas & H2d) Hhand.
  unfold onResults.
  rewrite Htrack, Hcanvas, H2d, Hhand. cbn [negb].
  eexists. split; [reflexivity|].
  match goal with |- context [updateFPS now ?s0] =>
    destruct (updateFPS_keeps now s0) as (E1 & E2 & E3 & E4 & E5) end.
  rewrite E2, E3.
  split; [reflexivity|]. split; [reflexivity|]. split; [|exact E5].
  unfold processes. rewrite E4. split; [reflexivity|].
  eexists. split; reflexivity.
Qed.

(** *** The end-to-end scenario *)

(** C3, refuted as stated.  On the 640 x 480 frame the thumb of the
    scenario lands on pixel (320, 240) and the index tip on (352, 96);
    their distance, the square root of [32^2 + 144^2], is below 148, more
    than 6 away from the 154.9 of the claim. *)
Lemma scenario_distance_not_154_9 :
  let th := toPixels 640 480 (Point.mk 0.5 0.5 0) in
  let it := toPixels 640 480 (Point.mk 0.55 0.2 0) in
  th = Point.mk 320 240 0 /\
  it = Point.mk 352 96 0 /\
  distance th it = sqrt ((320 - 352) ^ 2 + (240 - 96) ^ 2) /\
  distance th it < 148 /\
  Rabs (distance th it - 154.9) > 6.
Proof.
  cbv zeta. rewrite scenario_thumb_px, scenario_indexTip_px, scenario_distance.
  pose proof sqrt_21760_bounds as [Hlo Hhi].
  split; [reflexivity|]. split; [reflexivity|].
  split; [f_equal; lra|]. split; [lra|].
  rewrite Rabs_left by lra. lra.
Qed.

(** C3, as amended.  Pixel conversion on the 640 x 480 frame followed by
    the robot mapping: the scenario gives the thumb pixel (320, 240) and the
    index tip pixel (352, 96), a distance of [sqrt 21760], about 147.5,
    hence gripper [Open], [x = 0.1] and [y = 0.6]. *)
Theorem scenario_640x480 s :
  let th := toPixels 640 480 (Point.mk 0.5 0.5 0) in
  let ip := toPixels 640 480 (Point.mk 0.52 0.3 0) in
  let it := toPixels 640 480 (Point.mk 0.55 0.2 0) in
  let m := robotMapping
             (updateRobotMapping (mkFingertipData (Some th) (Some ip) (Some it))
                                 (num 640) (num 480) s) in
  th = Point.mk 320 240 0 /\
  it = Point.mk 352 96 0 /\
  distance th it = sqrt ((320 - 352) ^ 2 + (240 - 96) ^ 2) /\
  distance th it = sqrt 21760 /\
  147.5 < distance th it < 147.6 /\
  RobotMapping.gripper m = Open /\
  RobotMapping.x m = (352 / 640 - 0.5) * 2 /\
  RobotMapping.x m = 0.1 /\
  RobotMapping.y m = (96 / 480 - 0.5) * -2 /\
  RobotMapping.y m = 0.6.
Proof.
  cbv zeta. rewrite robotMapping_updateRobotMapping.
  rewrite scenario_thumb_px, scenario_indexTip_px, scenario_distance.
  cbn [RobotMapping.x RobotMapping.y RobotMapping.gripper Point.x Point.y].
  rewrite num_640, num_480.
  pose proof sqrt_21760_bounds as [Hlo Hhi].
  split; [reflexivity|]. split; [reflexivity|].
  split; [f_equal; lra|]. split; [reflexivity|]. split; [lra|].
  split; [destruct (Rlt_dec (sqrt 21760) 50); [lra | reflexivity]|].
  repeat split; lra.
Qed.

(** *** Ranges of the mapping *)

(** C7, at an input where the code leaves the ranges written beside it.  The
    scenario with the index tip at depth 1.5, on the 640 x 480 frame: [x] is
    0.1 and [y] is 0.6, inside [-1, 1], but [z] is 3, above the 2 of the
    comment [// 0 to 2]: [Math.max(0, ...)] bounds [z] from below only. *)
Theorem depth_above_stated_range s :
  let th := toPixels 640 480 (Point.mk 0.5 0.5 0) in
  let ip := toPixels 640 480 (Point.mk 0.52 0.3 0) in
  let it := toPixels 640 480 (Point.mk 0.55 0.2 1.5) in
  let m := robotMapping
             (updateRobotMapping (mkFingertipData (Some th) (Some ip) (Some it))
                                 (num 640) (num 480) s) in
  it = Point.mk 352 96 1.5 /\
  RobotMapping.x m = 0.1 /\
  RobotMapping.y m = 0.6 /\
  RobotMapping.z m = 3 /\
  ~ inStatedRanges m.
Proof.
  cbv zeta. rewrite robotMapping_updateRobotMapping.
  rewrite scenario_thumb_px, scenario_indexTip_px.
  unfold inStatedRanges.
  cbn [RobotMapping.x RobotMapping.y RobotMapping.z Point.x Point.y Point.z].
  rewrite num_640, num_480.
  assert (Hz : Rmax 0 (1.5 * 2) = 3).
  { rewrite Rmax_right by lra. lra. }
  rewrite Hz.
  split; [reflexivity|]. split; [lra|]. split; [lra|]. split; [reflexivity|].
  lra.
Qed.

(** What does hold.  When the index tip lies inside the frame
    ([0 <= x <= w], [0 <= y <= h], positive [w] and [h]), [x] and [y] of the
    mapping are in [-1, 1]; [z] is never negative, and it is at most 2
    whenever the depth of the index tip is at most 1. *)
Lemma mapping_ranges_inside_frame th ip it w h s :
  0 < w -> 0 < h ->
  0 <= Point.x it <= w ->
  0 <= Point.y it <= h ->
  let m := robotMapping
             (updateRobotMapping (mkFingertipData (Some th) ip (Some it)) w h s) in
  -1 <= RobotMapping.x m <= 1 /\
  -1 <= RobotMapping.y m <= 1 /\
  0 <= RobotMapping.z m /\
  (Point.z it <= 1 -> RobotMapping.z m <= 2).
Proof.
  intros Hw Hh [Hx0 Hx1] [Hy0 Hy1]. cbv zeta.
  rewrite robotMapping_updateRobotMapping.
  cbn [RobotMapping.x RobotMapping.y RobotMapping.z].
  assert (Hqx : 0 <= Point.x it / w <= 1).
  { split.
    - apply Rmult_le_pos; [assumption | left; apply Rinv_0_lt_compat; assumption].
    - apply (Rmult_le_reg_r w); [assumption|].
      unfold Rdiv. rewrite Rmult_assoc, Rinv_l by lra. lra. }
  assert (Hqy : 0 <= Point.y it / h <= 1).
  { split.
    - apply Rmult_le_pos; [assumption | left; apply Rinv_0_lt_compat; assumption].
    - apply (Rmult_le_reg_r h); [assumption|].
      unfold Rdiv. rewrite Rmult_assoc, Rinv_l by lra. lra. }
  repeat split; try lra.
  - apply Rmax_l.
  - intros Hz. apply Rmax_lub; lra.
Qed.

(** *** Shape of the mapping *)

(** C8.  For a frame of positive width and height, [x] of the mapping is the
    affine function [2 / w * indexTip.x - 1] of the index tip's [x] and grows
    strictly with it; [y] is the affine function [-2 / h * indexTip.y + 1]
    of the index tip's [y] and falls strictly as it grows. *)
Theorem mapping_affine_monotone th ip x1 x2 y1 y2 z w h s :
  0 < w -> 0 < h -> x1 < x2 -> y1 < y2 ->
  let m x y :=
    robotMapping
      (updateRobotMapping
         (mkFingertipData (Some th) ip (Some (Point.mk x y z))) w h s) in
  RobotMapping.x (m x1 y1) < RobotMapping.x (m x2 y1) /\
  RobotMapping.y (m x1 y1) > RobotMapping.y (m x1 y2) /\
  (forall x y, RobotMapping.x (m x y) = 2 / w * x - 1) /\
  (forall x y, RobotMapping.y (m x y) = -2 / h * y + 1).
Proof.
  intros Hw Hh Hx Hy. cbv zeta.
  assert (Hiw : 0 < / w) by (apply Rinv_0_lt_compat; assumption).
  assert (Hih : 0 < / h) by (apply Rinv_0_lt_compat; assumption).
  repeat split; intros;
    rewrite ?robotMapping_updateRobotMapping;
    cbn [RobotMapping.x RobotMapping.y Point.x Point.y];
    unfold Rdiv; try nra; try lra.
Qed.

Lemma mapping_affine_monotone_witness :
  let m x y :=
    robotMapping
      (updateRobotMapping
         (mkFingertipData (Some (Point.mk 320 240 0)) None
                          (Some (Point.mk x y 0))) 640 480 Scenario.tracking) in
  RobotMapping.x (m 320 96) < RobotMapping.x (m 352 96) /\
  RobotMapping.y (m 320 96) > RobotMapping.y (m 320 240) /\
  (forall x y, RobotMapping.x (m x y) = 2 / 640 * x - 1) /\
  (forall x y, RobotMapping.y (m x y) = -2 / 480 * y + 1).
Proof.
  apply (mapping_affine_monotone
           (Point.mk 320 240 0) None 320 352 96 240 0 640 480
           Scenario.tracking); lra.
Defined.

(** *** Stopping *)

(** C10.  Whatever the state, after [stopTracking] the three fingertips are
    absent, the mapping is the neutral one and the frame rate is 0. *)
Theorem stopTracking_neutral s :
  fingertips (stopTracking s) = noFingertips /\
  robotMapping (stopTracking s) = neutral /\
  fps (stopTracking s) = 0%Z /\
  thumb (fingertips (stopTracking s)) = None /\
  indexPip (fingertips (stopTracking s)) = None /\
  indexTip (fingertips (stopTracking s)) = None /\
  robotMapping (stopTracking s) = RobotMapping.mk 0 0 0 Open.
Proof. repeat split; reflexivity. Qed.

Lemma stopTracking_idempotent s :
  stopTracking (stopTracking s) = stopTracking s.
Proof.
  destruct s as [tr lo f m n st hands cam fc lt v c].
  cbv [stopTracking setStatus setFps setRobotMapping setFingertips
       setCanvasRef setCameraRef setIsTracking
       isTracking isLoading fingertips robotMapping fps status handsRef cameraRef
       frameCountRef lastTimeRef videoRef canvasRef].
  f_equal.
  - destruct cam; reflexivity.
  - destruct c as [c|]; [|reflexivity].
    cbn [option_map]. destruct (has2d c) eqn:E.
    + cbn [clearRect has2d]. rewrite E. reflexivity.
    + rewrite E. reflexivity.
Qed.

End WidgetFacts.

(** ** The route *)

Section RouteFacts.
Import Route.

Lemma halves_in_range k : (0 <= Scenario.halves k < 1)%R.
Proof. unfold Scenario.halves. lra. Qed.

Lemma simulatedData_in_range random now :
  (forall k, (0 <= random k < 1)%R) ->
  exists th ip it,
    Detect.simulatedData random now = mkFingertipData (Some th) (Some ip) (Some it) now /\
    Detect.inSimulatedRange th /\
    Detect.inSimulatedRange ip /\
    Detect.inSimulatedRange it.
Proof.
  intros Hr. unfold Detect.simulatedData. do 3 eexists.
  split; [reflexivity|].
  unfold Detect.inSimulatedRange; cbn [Point.x Point.y Point.z].
  pose proof (Hr 0%nat). pose proof (Hr 1%nat). pose proof (Hr 2%nat).
  pose proof (Hr 3%nat). pose proof (Hr 4%nat). pose proof (Hr 5%nat).
  pose proof (Hr 6%nat). pose proof (Hr 7%nat). pose proof (Hr 8%nat).
  repeat split; lra.
Qed.

(** C4, refuted as stated.  With the camera on, the click that starts the
    tracking hands a frame over.  When the detection call for that frame
    throws, the route does not end up as after a reply without a hand: the
    latter leaves the three fingertips absent, the former leaves three
    simulated fingertips (here at (50, 50, 50), every random draw being one
    half). *)
Lemma extraction_failure_not_no_hand :
  let click := startTracking "10:00:01" Scenario.cameraOn in
  let failed :=
    Detect.onBlob (Detect.Threw (Some "Failed to fetch")) Scenario.halves
                  1000 "10:00:02" Scenario.live in
  let noHand :=
    Detect.onBlob (Detect.Ok [] "0.00" None) Scenario.halves
                  1000 "10:00:02" Scenario.live in
  click.2 = true /\
  click.1 = Scenario.live /\
  fingertipData noHand = noFingertips 1000 /\
  thumb (fingertipData failed) = Some (Point.mk 50 50 50) /\
  indexPip (fingertipData failed) = Some (Point.mk 50 50 50) /\
  indexTip (fingertipData failed) = Some (Point.mk 50 50 50) /\
  fingertipData failed <> fingertipData noHand.
Proof.
  cbv zeta.
  split; [vm_compute; reflexivity|]. split; [reflexivity|].
  change (fingertipData
            (Detect.onBlob (Detect.Ok [] "0.00" None) Scenario.halves 1000
                           "10:00:02" Scenario.live))
    with (noFingertips 1000).
  change (fingertipData
            (Detect.onBlob (Detect.Threw (Some "Failed to fetch"))
                           Scenario.halves 1000 "10:00:02" Scenario.live))
    with (Detect.simulatedData Scenario.halves 1000).
  unfold Detect.simulatedData, Scenario.halves.
  cbn [thumb indexPip indexTip].
  assert (E : (/ 2 * 100 = 50)%R) by lra.
  rewrite E. repeat split. discriminate.
Qed.

(** C4, as amended.  A detection call that throws is caught by the reply
    handler, which logs the error and leaves the robot state alone.  In the
    revision that posts to [/detect_hands] it then replaces the fingertips
    by simulated ones, all three present, each coordinate in [0, 100), and
    it changes nothing at all on a reply that is not OK.  In the revision
    that posts to [/track] it makes the three fingertips absent, on a thrown
    call and on a reply that is not OK alike. *)
Theorem extraction_failure_fallback message random now clock s :
  (forall k, (0 <= random k < 1)%R) ->
  let failed := Detect.onBlob (Detect.Threw message) random now clock s in
  let failed' := Track.onBlob (Track.Threw message) now clock s in
  fingertipData failed = Detect.simulatedData random now /\
  (exists th ip it,
     fingertipData failed = mkFingertipData (Some th) (Some ip) (Some it) now /\
     Detect.inSimulatedRange th /\
     Detect.inSimulatedRange ip /\
     Detect.inSimulatedRange it) /\
  robotState failed = robotState s /\
  consoleLogs failed =
    take 50 (("[" +:+ clock +:+ "] API Error: "
              +:+ default "Unknown error" message) :: consoleLogs s) /\
  Detect.onBlob Detect.NotOk random now clock s = s /\
  fingertipData failed' = noFingertips now /\
  robotState failed' = robotState s /\
  consoleLogs failed' = consoleLogs failed /\
  fingertipData (Track.onBlob Track.NotOk now clock s) = noFingertips now.
Proof.
  intros Hr. cbv zeta.
  split; [reflexivity|].
  split.
  { destruct (simulatedData_in_range random now Hr) as (th & ip & it & E & H).
    exists th, ip, it. split; [|exact H].
    change (fingertipData (Detect.onBlob (Detect.Threw message) random now clock s))
      with (Detect.simulatedData random now).
    exact E. }
  repeat split; reflexivity.
Qed.

Lemma extraction_failure_fallback_witness :
  let failed :=
    Detect.onBlob (Detect.Threw (Some "Failed to fetch")) Scenario.halves
                  1000 "10:00:02" Scenario.live in
  fingertipData failed = Detect.simulatedData Scenario.halves 1000 /\
  robotState failed = robotState Scenario.live /\
  fingertipData (Track.onBlob (Track.Threw (Some "Failed to fetch")) 1000
                              "10:00:02" Scenario.live)
  = noFingertips 1000.
Proof.
  cbv zeta.
  destruct (extraction_failure_fallback (Some "Failed to fetch")
              Scenario.halves 1000 "10:00:02" Scenario.live halves_in_range)
    as (H1 & _ & H3 & _ & _ & H6 & _).
  repeat split; assumption.
Defined.

(** *** Stopping the camera *)

Lemma stopCamera_stopped t1 t2 s :
  stopped s = true ->
  stopCamera t1 t2 s = addToConsole t2 "Camera stopped" s.
Proof.
  destruct s as [sr sm co ca tr logs f r v c st an ss fr].
  cbv [stopped isCameraActive isTracking streamRef videoRef].
  intros H.
  apply andb_prop in H as [H Hv]. apply andb_prop in H as [H Hs].
  apply andb_prop in H as [Hca Htr].
  apply negb_true_iff in Hca, Htr.
  apply bool_decide_eq_true in Hs, Hv. subst ca tr st.
  cbv [stopCamera addToConsole setConsoleLogs setIsCameraActive setVideoRef
       setStreamRef setStreams
       selectedRobot selectedModel isConnected isCameraActive isTracking
       consoleLogs fingertipData robotState videoRef canvasRef streamRef
       animationRef streams frameRequests].
  destruct v as [[src rs vw vh]|]; [|reflexivity].
  cbn in Hv. subst src. reflexivity.
Qed.

(** C9, refuted as stated.  The route as mounted has its camera stopped, and
    [stopCamera] changes it: a line is added to the console log, and a
    second call adds a second line.  The widget as mounted is stopped too,
    and [stopTracking] changes its status text. *)
Lemma stop_when_stopped_changes_state :
  stopped init = true /\
  consoleLogs init = [] /\
  consoleLogs (stopCamera "10:00:00" "10:00:00" init)
  = ["[10:00:00] Camera stopped"] /\
  consoleLogs (stopCamera "10:00:05" "10:00:05"
                 (stopCamera "10:00:00" "10:00:00" init))
  = ["[10:00:05] Camera stopped"; "[10:00:00] Camera stopped"] /\
  stopCamera "10:00:00" "10:00:00" init <> init /\
  stopCamera "10:00:05" "10:00:05" (stopCamera "10:00:00" "10:00:00" init)
  <> stopCamera "10:00:00" "10:00:00" init /\
  Widget.isTracking Widget.init = false /\
  Widget.status Widget.init = "Ready to start tracking" /\
  Widget.status (Widget.stopTracking Widget.init) = "Tracking stopped" /\
  Widget.stopTracking Widget.init <> Widget.init.
Proof.
  repeat split; try reflexivity.
  - intros E. apply (f_equal consoleLogs) in E. discriminate E.
  - intros E. apply (f_equal consoleLogs) in E. discriminate E.
  - intros E. apply (f_equal Widget.status) in E. discriminate E.
Qed.

(** C9, as amended.  Stopping a stopped camera raises no error and leaves
    the camera stopped; in the route the only change is one more
    "Camera stopped" line at the head of the console log (cut to 50 lines),
    every other cell, ref and stream being as before; the widget's
    [stopTracking] is idempotent. *)
Theorem stop_when_stopped_logs_only t1 t2 s w :
  stopped s = true ->
  stopCamera t1 t2 s = addToConsole t2 "Camera stopped" s /\
  consoleLogs (stopCamera t1 t2 s)
  = take 50 (("[" +:+ t2 +:+ "] Camera stopped") :: consoleLogs s) /\
  stopped (stopCamera t1 t2 s) = true /\
  Widget.stopTracking (Widget.stopTracking w) = Widget.stopTracking w.
Proof.
  intros Hs. rewrite (stopCamera_stopped t1 t2 s Hs).
  repeat split.
  - destruct s; exact Hs.
  - apply stopTracking_idempotent.
Qed.

Lemma stop_when_stopped_logs_only_witness :
  stopCamera "10:00:00" "10:00:00" init
  = addToConsole "10:00:00" "Camera stopped" init /\
  consoleLogs (stopCamera "10:00:00" "10:00:00" init)
  = ["[10:00:00] Camera stopped"] /\
  stopped (stopCamera "10:00:00" "10:00:00" init) = true /\
  Widget.stopTracking (Widget.stopTracking Scenario.tracking)
  = Widget.stopTracking Scenario.tracking.
Proof.
  apply (stop_when_stopped_logs_only "10:00:00" "10:00:00" init
           Scenario.tracking).
  reflexivity.
Defined.

End RouteFacts.

(** ** The live channel *)

Section IntegrationFacts.
Import Integration.

(** A close event sets exactly one timeout, due 3000 ms later, and stores
    its handle in the ref. *)
Lemma onclose_sets_one_timeout now s :
  timers s !! nextTimer s = None ->
  pendingReconnects (onclose now s) = S (pendingReconnects s) /\
  timers (onclose now s) = <[nextTimer s := (now + 3000)%N]> (timers s) /\
  reconnectTimeoutRef (onclose now s) = Some (nextTimer s) /\
  connectionStatus (onclose now s) = "disconnected" /\
  isConnected (onclose now s) = false.
Proof.
  intros Hfresh.
  destruct s as [co tr rt td cs ws rr so ti nt se].
  cbv [onclose setTimeout setIsConnected setIsTracking setConnectionStatus
       setReconnectTimeoutRef setNextTimer setTimers pendingReconnects
       isConnected isTracking robotType trackingData connectionStatus wsRef
       reconnectTimeoutRef sockets timers nextTimer sent] in *.
  repeat split.
  apply map_size_insert_None, Hfresh.
Qed.

(** An open event clears the timeout whose handle the ref holds, and only
    that one. *)
Lemma onopen_clears_stored_timeout s handle :
  reconnectTimeoutRef s = Some handle ->
  timers (onopen s) = delete handle (timers s) /\
  reconnectTimeoutRef (onopen s) = None /\
  isConnected (onopen s) = true /\
  connectionStatus (onopen s) = "connected".
Proof.
  destruct s as [co tr rt td cs ws rr so ti nt se].
  cbv [onopen clearTimeout setIsConnected setConnectionStatus
       setReconnectTimeoutRef setTimers
       isConnected isTracking robotType trackingData connectionStatus wsRef
       reconnectTimeoutRef sockets timers nextTimer sent].
  intros ->. repeat split.
Qed.

(** When the socket has already closed, a disconnect clears the pending
    reconnect and nothing is left to run. *)
Lemma disconnect_after_close_is_final :
  exists s,
    run 0 [(0, ClickConnect false); (100, SocketClose 0);
           (200, ClickDisconnect)]%N init = Some s /\
    pendingReconnects s = 0%nat /\
    wsRef s = None /\
    map_to_list (sockets s) = [(0%nat, CLOSED)].
Proof.
  eexists. split; [vm_compute; reflexivity|].
  repeat split.
Qed.

(** C5, evaluated on the code.  The channel is open and the user
    disconnects at 5000 ms.  The closed socket still carries [onclose]: its
    close event at 5010 ms sets the reconnect timeout, which comes due at
    8010 ms and opens a new socket; at 8100 ms the component is connected
    again, and no Connect was clicked after the disconnect. *)
Theorem disconnect_then_reconnects :
  (exists s,
     run 0 (take 4 Scenario.disconnectTrace) init = Some s /\
     connectionStatus s = "disconnected" /\
     wsRef s = None /\
     reconnectTimeoutRef s = Some 1%positive /\
     timers s !! 1%positive = Some 8010%N) /\
  (exists s,
     run 0 Scenario.disconnectTrace init = Some s /\
     isConnected s = true /\
     connectionStatus s = "connected" /\
     wsRef s = Some 1%nat /\
     sockets s !! 1%nat = Some OPEN) /\
  Forall (fun e => forall throws, e.2 <> ClickConnect throws
                                  /\ e.2 <> ClickStartTracking throws)
         (drop 3 Scenario.disconnectTrace).
Proof.
  split; [|split].
  - eexists. split; [vm_compute; reflexivity|]. repeat split.
  - eexists. split; [vm_compute; reflexivity|]. repeat split.
  - cbn [drop Scenario.disconnectTrace].
    repeat constructor; cbn; discriminate.
Qed.

(** C6, evaluated on the code.  Connect is clicked twice while the backend
    does not answer and both sockets fail: each close event sets its
    timeout without clearing the one before, so two reconnects are pending
    (due at 3200 and 3300 ms) and the ref knows only the second.  When a
    third socket then opens, [onopen] clears the second and the first stays
    pending. *)
Theorem two_reconnects_pending :
  (exists s,
     run 0 Scenario.doubleConnectTrace init = Some s /\
     pendingReconnects s = 2%nat /\
     timers s !! 1%positive = Some 3200%N /\
     timers s !! 2%positive = Some 3300%N /\
     reconnectTimeoutRef s = Some 2%positive) /\
  (exists s,
     run 0 Scenario.reopenTrace init = Some s /\
     isConnected s = true /\
     reconnectTimeoutRef s = None /\
     pendingReconnects s = 1%nat /\
     timers s !! 1%positive = Some 3200%N).
Proof.
  split.
  - eexists. split; [vm_compute; reflexivity|]. repeat split.
  - eexists. split; [vm_compute; reflexivity|]. repeat split.
Qed.

End IntegrationFacts.

(** ** More on the widget *)

Section WidgetMore.
Import Widget.
Local Open Scope R_scope.

(** *** Incomplete hands *)

Lemma lookups_of_length (landmarks : list Point.t) :
  (8 < length landmarks)%nat ->
  exists p4 p6 p8,
    landmarks !! 4%nat = Some p4 /\ landmarks !! 6%nat = Some p6 /\
    landmarks !! 8%nat = Some p8.
Proof.
  intros Hlen.
  destruct (lookup_lt_is_Some_2 landmarks 4) as [p4 H4]; [lia|].
  destruct (lookup_lt_is_Some_2 landmarks 6) as [p6 H6]; [lia|].
  destruct (lookup_lt_is_Some_2 landmarks 8) as [p8 H8]; [lia|].
  eauto 10.
Qed.

(** X1.  An [onResults] that processes frames, handed a frame with a
    detected hand, throws exactly when the hand has fewer than nine
    landmarks; the throw leaves fingertips, mapping, frame rate and frame
    counter as they were. *)
Theorem onResults_throws_on_short_hand c results now s landmarks :
  processes c s ->
  firstHand results = Some landmarks ->
  match onResults c results now s with
  | Thrown s' =>
      (length landmarks <= 8)%nat /\
      fingertips s' = fingertips s /\ robotMapping s' = robotMapping s /\
      fps s' = fps s /\ frameCountRef s' = frameCountRef s
  | Returned s' =>
      (8 < length landmarks)%nat /\
      exists p4 p8, landmarks !! 4%nat = Some p4 /\ landmarks !! 8%nat = Some p8 /\
        thumb (fingertips s') = Some (toPixels (frameWidth s) (frameHeight s) p4) /\
        indexTip (fingertips s') = Some (toPixels (frameWidth s) (frameHeight s) p8)
  end.
Proof.
  intros Hp Hhand.
  destruct (le_lt_dec (length landmarks) 8) as [Hshort | Hlong].
  - destruct Hp as (Htrack & canvas & Hcanvas & H2d).
    unfold onResults. rewrite Htrack, Hcanvas, H2d, Hhand. cbn [negb].
    assert (H8 : landmarks !! 8%nat = None) by (apply lookup_ge_None; lia).
    rewrite H8.
    destruct (landmarks !! 4%nat), (landmarks !! 6%nat); repeat split; assumption.
  - destruct (lookups_of_length landmarks Hlong) as (p4 & p6 & p8 & H4 & H6 & H8).
    destruct (onResults_hand c results now s landmarks p4 p6 p8 Hp Hhand H4 H6 H8)
      as (s' & Hrun & Hf & _).
    rewrite Hrun. split; [exact Hlong|].
    exists p4, p8. rewrite Hf. repeat split; assumption.
Qed.

Lemma onResults_throws_on_short_hand_witness :
  (exists s',
     onResults true Scenario.shortFrame 16 Scenario.tracking = Thrown s' /\
     (length Scenario.shortHand <= 8)%nat /\
     fingertips s' = fingertips Scenario.tracking /\
     robotMapping s' = robotMapping Scenario.tracking /\
     fps s' = fps Scenario.tracking /\
     frameCountRef s' = frameCountRef Scenario.tracking) /\
  (exists s',
     onResults true Scenario.handFrame 16 Scenario.tracking = Returned s' /\
     (8 < length Scenario.hand)%nat).
Proof.
  split.
  - pose proof (onResults_throws_on_short_hand true Scenario.shortFrame 16
                  Scenario.tracking Scenario.shortHand
                  processes_tracking eq_refl) as H.
    destruct (onResults true Scenario.shortFrame 16 Scenario.tracking)
      as [s' | s'] eqn:E.
    + exfalso. destruct H as [H _]. cbn in H. lia.
    + exists s'. split; [reflexivity | exact H].
  - pose proof (onResults_throws_on_short_hand true Scenario.handFrame 16
                  Scenario.tracking Scenario.hand
                  processes_tracking eq_refl) as H.
    destruct (onResults true Scenario.handFrame 16 Scenario.tracking)
      as [s' | s'] eqn:E.
    + exists s'. split; [reflexivity | apply H].
    + exfalso. destruct H as [H _]. cbn in H. lia.
Defined.

(** *** Frames that arrive after a stop *)

Lemma isTracking_stopTracking s : isTracking (stopTracking s) = false.
Proof. destruct s. reflexivity. Qed.

Lemma frames_not_tracking fs s : frames false fs s = Returned s.
Proof.
  induction fs as [|[results now] fs IH]; [reflexivity|].
  cbn [frames onResults negb]. exact IH.
Qed.

(** X2.  Whatever the state in which [stopTracking] ran, the results that
    still arrive afterwards are dropped: handed to the [onResults] of the
    render that follows the stop, any run of frames returns the stopped
    state unchanged; and so does, in any state, any run of frames handed to
    an [onResults] that closed over [isTracking = false]. *)
Theorem frames_after_stop_dropped fs s :
  frames (isTracking (stopTracking s)) fs (stopTracking s)
  = Returned (stopTracking s) /\
  frames false fs s = Returned s.
Proof.
  rewrite isTracking_stopTracking. split; apply frames_not_tracking.
Qed.

(** *** Frames leave no trace on the next one *)

Lemma frameSize_videoRef s1 s2 :
  videoRef s1 = videoRef s2 ->
  frameWidth s1 = frameWidth s2 /\ frameHeight s1 = frameHeight s2.
Proof. unfold frameWidth, frameHeight. intros ->. split; reflexivity. Qed.

Lemma onResults_complete c results now s :
  processes c s ->
  Notions.complete results ->
  exists s',
    onResults c results now s = Returned s' /\ processes c s' /\
    videoRef s' = videoRef s.
Proof.
  intros Hp Hc. unfold Notions.complete in Hc.
  destruct (firstHand results) as [landmarks|] eqn:Hhand.
  - destruct (lookups_of_length landmarks Hc) as (p4 & p6 & p8 & H4 & H6 & H8).
    destruct (onResults_hand c results now s landmarks p4 p6 p8 Hp Hhand H4 H6 H8)
      as (s' & Hrun & _ & _ & Hp' & Hv).
    exists s'. auto.
  - destruct (onResults_no_hand c results now s Hp Hhand)
      as (s' & Hrun & _ & _ & Hp' & Hv).
    exists s'. auto.
Qed.

(** What a complete frame leaves behind depends on the frame and on the
    size of the video, not on what the frames before it left. *)
Lemma onResults_memoryless c results now1 now2 s1 s2 :
  processes c s1 -> processes c s2 ->
  videoRef s1 = videoRef s2 ->
  Notions.complete results ->
  exists a b,
    onResults c results now1 s1 = Returned a /\
    onResults c results now2 s2 = Returned b /\
    fingertips a = fingertips b /\
    (firstHand results = None \/ robotMapping a = robotMapping b).
Proof.
  intros Hp1 Hp2 Hv Hc. unfold Notions.complete in Hc.
  destruct (frameSize_videoRef s1 s2 Hv) as [Ew Eh].
  destruct (firstHand results) as [landmarks|] eqn:Hhand.
  - destruct (lookups_of_length landmarks Hc) as (p4 & p6 & p8 & H4 & H6 & H8).
    destruct (onResults_hand c results now1 s1 landmarks p4 p6 p8 Hp1 Hhand H4 H6 H8)
      as (a & Ha & Hfa & Hma & _).
    destruct (onResults_hand c results now2 s2 landmarks p4 p6 p8 Hp2 Hhand H4 H6 H8)
      as (b & Hb & Hfb & Hmb & _).
    exists a, b. rewrite Hfa, Hfb, Hma, Hmb, Ew, Eh. auto.
  - destruct (onResults_no_hand c results now1 s1 Hp1 Hhand)
      as (a & Ha & Hfa & _).
    destruct (onResults_no_hand c results now2 s2 Hp2 Hhand)
      as (b & Hb & Hfb & _).
    exists a, b. rewrite Hfa, Hfb. auto.
Qed.

Lemma frames_app c fs gs s :
  frames c (fs ++ gs) s =
  match frames c fs s with
  | Returned s' => frames c gs s'
  | Thrown s' => Thrown s'
  end.
Proof.
  revert s. induction fs as [|[results now] fs IH]; intros s; [reflexivity|].
  cbn [app frames].
  destruct (onResults c results now s); [apply IH | reflexivity].
Qed.

Lemma frames_complete c fs s :
  processes c s ->
  Forall (fun f => Notions.complete f.1) fs ->
  exists s', frames c fs s = Returned s' /\ processes c s' /\
             videoRef s' = videoRef s.
Proof.
  intros Hp Hall. revert s Hp.
  induction Hall as [|[results now] fs Hc _ IH]; intros s Hp.
  - exists s. auto.
  - destruct (onResults_complete c results now s Hp Hc) as (s1 & Hrun & Hp1 & Hv1).
    destruct (IH s1 Hp1) as (s' & Hrest & Hp' & Hv').
    exists s'. cbn [frames]. rewrite Hrun, Hrest, Hv', Hv1. auto.
Qed.

Lemma frames_guarded c fs s :
  ~ processes c s -> frames c fs s = Returned s.
Proof.
  intros Hn. induction fs as [|[results now] fs IH]; [reflexivity|].
  cbn [frames]. rewrite onResults_guarded by exact Hn. exact IH.
Qed.

(** X3.  No filtering across frames: after any run of complete frames
    handed to one [onResults], the fingertips are those the last frame
    alone would have given, and so is the mapping when that frame shows a
    hand; the run never throws, and an [onResults] that processed frames
    before the run goes on processing them. *)
Theorem frames_last_frame_wins c fs results now s :
  Forall (fun f => Notions.complete f.1) fs ->
  Notions.complete results ->
  exists a b,
    frames c (fs ++ [(results, now)]) s = Returned a /\
    onResults c results now s = Returned b /\
    fingertips a = fingertips b /\
    (firstHand results = None \/ robotMapping a = robotMapping b) /\
    (processes c s -> processes c a).
Proof.
  intros Hall Hc.
  destruct (processes_dec c s) as [Hp | Hn].
  - destruct (frames_complete c fs s Hp Hall) as (s1 & Hrun & Hp1 & Hv1).
    destruct (onResults_memoryless c results now now s1 s Hp1 Hp Hv1 Hc)
      as (a & b & Ha & Hb & Hf & Hm).
    destruct (onResults_complete c results now s1 Hp1 Hc) as (a' & Ha' & Hpa & _).
    rewrite Ha in Ha'. injection Ha' as <-.
    exists a, b. rewrite frames_app, Hrun. cbn [frames]. rewrite Ha.
    split; [reflexivity|]. split; [exact Hb|]. split; [exact Hf|].
    split; [exact Hm | intros _; exact Hpa].
  - exists s, s. rewrite frames_guarded, onResults_guarded by exact Hn.
    split; [reflexivity|]. split; [reflexivity|]. split; [reflexivity|].
    split; [right; reflexivity | intros Hp; exact Hp].
Qed.

Lemma complete_handFrame : Notions.complete Scenario.handFrame.
Proof. unfold Notions.complete. cbn. lia. Qed.

Lemma complete_emptyFrame : Notions.complete Scenario.emptyFrame.
Proof. exact I. Qed.

Lemma frames_last_frame_wins_witness :
  exists a b,
    frames true ([(Scenario.emptyFrame, 16)] ++ [(Scenario.handFrame, 33)])
           Scenario.tracking = Returned a /\
    onResults true Scenario.handFrame 33 Scenario.tracking = Returned b /\
    fingertips a = fingertips b /\
    (firstHand Scenario.handFrame = None \/ robotMapping a = robotMapping b) /\
    (processes true Scenario.tracking -> processes true a).
Proof.
  apply (frames_last_frame_wins true [(Scenario.emptyFrame, 16)]
           Scenario.handFrame 33 Scenario.tracking).
  - constructor; [exact complete_emptyFrame | constructor].
  - exact complete_handFrame.
Defined.

(** *** What the mapping does not depend on *)

(** X4.  Pixel conversion followed by the mapping gives a position that
    depends on the normalised index tip only, not on the size of the video:
    whatever the state the frame size is taken from, [x] is
    [2 * tip.x - 1], [y] is [1 - 2 * tip.y] and [z] is
    [max 0 (2 * tip.z)]. *)
Theorem mapping_position_resolution_free th ip tip s1 s2 :
  let m s :=
    let w := frameWidth s in
    let h := frameHeight s in
    robotMapping
      (updateRobotMapping
         (mkFingertipData (Some (toPixels w h th)) (Some (toPixels w h ip))
                          (Some (toPixels w h tip)))
         (num w) (num h) s) in
  RobotMapping.x (m s1) = 2 * Point.x tip - 1 /\
  RobotMapping.y (m s1) = 1 - 2 * Point.y tip /\
  RobotMapping.z (m s1) = Rmax 0 (Point.z tip * 2) /\
  RobotMapping.x (m s2) = RobotMapping.x (m s1) /\
  RobotMapping.y (m s2) = RobotMapping.y (m s1) /\
  RobotMapping.z (m s2) = RobotMapping.z (m s1).
Proof.
  cbv beta zeta. rewrite !robotMapping_updateRobotMapping.
  destruct (frame_size_positive s1) as [Hw1 Hh1].
  destruct (frame_size_positive s2) as [Hw2 Hh2].
  cbn [RobotMapping.x RobotMapping.y RobotMapping.z toPixels
       Point.x Point.y Point.z].
  assert (E : forall v d, 0 < d -> v * d / d = v) by (intros; field; lra).
  rewrite !E by assumption.
  repeat split; lra.
Qed.

Lemma distance_moved dx dy zt zi th it :
  distance (Notions.moved dx dy zt th) (Notions.moved dx dy zi it)
  = distance th it.
Proof.
  unfold distance, Notions.moved. cbn [Point.x Point.y]. f_equal. ring.
Qed.

Lemma distance_sym p q : distance p q = distance q p.
Proof. unfold distance. f_equal. ring. Qed.

(** X5.  The gripper depends only on the offset between thumb and index tip
    in the image plane: moving both points by the same amount, changing
    their depths, swapping them, or changing the index PIP, the frame size
    or the state does not change it. *)
Theorem gripper_depends_on_offset_only th it dx dy zt zi ip ip' w h w' h' s s' :
  let g t i ip w h s :=
    RobotMapping.gripper
      (robotMapping
         (updateRobotMapping (mkFingertipData (Some t) ip (Some i)) w h s)) in
  g (Notions.moved dx dy zt th) (Notions.moved dx dy zi it) ip' w' h' s'
  = g th it ip w h s /\
  g it th ip' w' h' s' = g th it ip w h s.
Proof.
  cbv beta zeta. rewrite !robotMapping_updateRobotMapping.
  cbn [RobotMapping.gripper].
  rewrite distance_moved, (distance_sym it th). split; reflexivity.
Qed.

Lemma num_nonneg n : 0 <= num n.
Proof. unfold num. apply IZR_le. lia. Qed.

Lemma num_le m n : (m <= n)%N -> num m <= num n.
Proof. intros H. unfold num. apply IZR_le. lia. Qed.

Lemma distance_toPixels_mono a b (w h w' h' : N) :
  (w <= w')%N -> (h <= h')%N ->
  distance (toPixels w h a) (toPixels w h b)
  <= distance (toPixels w' h' a) (toPixels w' h' b).
Proof.
  intros Hw Hh. unfold distance, toPixels. cbn [Point.x Point.y].
  pose proof (num_nonneg w) as Hw0. pose proof (num_le w w' Hw) as Hw1.
  pose proof (num_nonneg h) as Hh0. pose proof (num_le h h' Hh) as Hh1.
  set (W := num w) in *. set (W' := num w') in *.
  set (H := num h) in *. set (H' := num h') in *.
  set (u := Point.x a - Point.x b). set (v := Point.y a - Point.y b).
  replace ((Point.x a * W - Point.x b * W) ^ 2 + (Point.y a * H - Point.y b * H) ^ 2)
    with (u ^ 2 * W ^ 2 + v ^ 2 * H ^ 2) by (unfold u, v; ring).
  replace ((Point.x a * W' - Point.x b * W') ^ 2 + (Point.y a * H' - Point.y b * H') ^ 2)
    with (u ^ 2 * W' ^ 2 + v ^ 2 * H' ^ 2) by (unfold u, v; ring).
  apply sqrt_le_1_alt.
  assert (0 <= u ^ 2) by apply pow2_ge_0.
  assert (0 <= v ^ 2) by apply pow2_ge_0.
  assert (W ^ 2 <= W' ^ 2) by nra.
  assert (H ^ 2 <= H' ^ 2) by nra.
  apply Rplus_le_compat; apply Rmult_le_compat_l; assumption.
Qed.

(** X6.  The 50 pixel threshold is in pixels of the frame: for the same
    normalised thumb and index tip, a pinch that closes the gripper on a
    frame closes it on every frame that is no wider and no higher. *)
Theorem pinch_closes_on_smaller_frame a b ip ip' (w h w' h' : N) s s' :
  (w <= w')%N -> (h <= h')%N ->
  let g W H ip s :=
    RobotMapping.gripper
      (robotMapping
         (updateRobotMapping
            (mkFingertipData (Some (toPixels W H a)) ip (Some (toPixels W H b)))
            (num W) (num H) s)) in
  g w' h' ip' s' = Closed -> g w h ip s = Closed.
Proof.
  intros Hw Hh. cbv beta zeta. rewrite !robotMapping_updateRobotMapping.
  cbn [RobotMapping.gripper].
  pose proof (distance_toPixels_mono a b w h w' h' Hw Hh) as Hd.
  destruct (Rlt_dec (distance (toPixels w' h' a) (toPixels w' h' b)) 50);
    [|discriminate].
  intros _.
  destruct (Rlt_dec (distance (toPixels w h a) (toPixels w h b)) 50);
    [reflexivity | lra].
Qed.

Lemma pinch_closes_on_smaller_frame_witness :
  RobotMapping.gripper
    (robotMapping
       (updateRobotMapping
          (mkFingertipData (Some (toPixels 640 480 (Point.mk 0.5 0.5 0))) None
                           (Some (toPixels 640 480 (Point.mk 0.5 0.5 0))))
          (num 640) (num 480) Scenario.tracking)) = Closed.
Proof.
  apply (pinch_closes_on_smaller_frame (Point.mk 0.5 0.5 0) (Point.mk 0.5 0.5 0)
           None None 640 480 1280 960 Scenario.tracking Scenario.tracking);
    [lia | lia |].
  rewrite robotMapping_updateRobotMapping. cbn [RobotMapping.gripper].
  assert (E : distance (toPixels 1280 960 (Point.mk 0.5 0.5 0))
                       (toPixels 1280 960 (Point.mk 0.5 0.5 0)) = 0).
  { unfold distance.
    replace ((Point.x (toPixels 1280 960 (Point.mk 0.5 0.5 0))
              - Point.x (toPixels 1280 960 (Point.mk 0.5 0.5 0))) ^ 2
             + (Point.y (toPixels 1280 960 (Point.mk 0.5 0.5 0))
                - Point.y (toPixels 1280 960 (Point.mk 0.5 0.5 0))) ^ 2)
      with 0 by ring.
    apply sqrt_0. }
  rewrite E. destruct (Rlt_dec 0 50) as [_ | Hn]; [reflexivity | lra].
Defined.

(** *** The frame rate *)

Lemma Math_round_IZR k : Math_round (IZR k) = k.
Proof.
  unfold Math_round. symmetry. apply Int_part_spec. lra.
Qed.

Lemma Math_round_le x y : x <= y -> (Math_round x <= Math_round y)%Z.
Proof.
  intros Hxy. unfold Math_round.
  destruct (base_Int_part (x + / 2)) as [Hx _].
  destruct (base_Int_part (y + / 2)) as [_ Hy].
  assert (H : (Int_part (x + / 2) < Int_part (y + / 2) + 1)%Z).
  { apply lt_IZR. rewrite plus_IZR. lra. }
  lia.
Qed.

(** X7.  [updateFPS] counts the frame; once at least 1000 ms have passed
    since the window began it publishes a rate between 0 and the number of
    frames counted (exactly that number at exactly 1000 ms) and starts a new
    window at [now]; before that it only counts. *)
Theorem updateFPS_counts_window now s :
  (0 <= frameCountRef s)%Z ->
  let n := (frameCountRef s + 1)%Z in
  let s' := updateFPS now s in
  (1000 <= now - lastTimeRef s ->
     (0 <= fps s' <= n)%Z /\ frameCountRef s' = 0%Z /\ lastTimeRef s' = now) /\
  (now - lastTimeRef s = 1000 -> fps s' = n) /\
  (now - lastTimeRef s < 1000 ->
     fps s' = fps s /\ frameCountRef s' = n /\ lastTimeRef s' = lastTimeRef s).
Proof.
  intros Hn.
  destruct s as [tr lo f m rate st hands cam fc lt v c].
  cbv [updateFPS setFrameCountRef setFps setLastTimeRef
       isTracking isLoading fingertips robotMapping fps status handsRef cameraRef
       frameCountRef lastTimeRef videoRef canvasRef] in *.
  destruct (Rle_dec 1000 (now - lt)) as [Hle | Hlt].
  - assert (Hpos : 0 < now - lt) by lra.
    assert (Hfc : 0 <= IZR (fc + 1)) by (apply IZR_le; lia).
    assert (Hq0 : 0 <= IZR (fc + 1) * 1000 / (now - lt)).
    { apply Rmult_le_pos; [lra | left; apply Rinv_0_lt_compat; exact Hpos]. }
    assert (Hq1 : IZR (fc + 1) * 1000 / (now - lt) <= IZR (fc + 1)).
    { apply (Rmult_le_reg_r (now - lt)); [exact Hpos|].
      unfold Rdiv. rewrite Rmult_assoc, Rinv_l by lra. nra. }
    split; [|split].
    + intros _. split; [|split; reflexivity].
      split.
      * rewrite <- (Math_round_IZR 0). apply Math_round_le, Hq0.
      * rewrite <- (Math_round_IZR (fc + 1)) at 2. apply Math_round_le, Hq1.
    + intros E. rewrite E.
      replace (IZR (fc + 1) * 1000 / 1000) with (IZR (fc + 1)) by (field; lra).
      apply Math_round_IZR.
    + intros Hlt. lra.
  - split; [|split].
    + intros Hle. contradiction.
    + intros E. exfalso. apply Hlt. lra.
    + intros _. repeat split.
Qed.

Lemma updateFPS_counts_window_witness :
  fps (updateFPS 1000 Scenario.tracking) = 1%Z /\
  frameCountRef (updateFPS 1000 Scenario.tracking) = 0%Z /\
  frameCountRef (updateFPS 16 Scenario.tracking) = 1%Z.
Proof.
  assert (Hc : (0 <= frameCountRef Scenario.tracking)%Z)
    by (change (frameCountRef Scenario.tracking) with 0%Z; lia).
  destruct (updateFPS_counts_window 1000 Scenario.tracking Hc) as (Ha & Hb & _).
  destruct (updateFPS_counts_window 16 Scenario.tracking Hc) as (_ & _ & Hd).
  change (lastTimeRef Scenario.tracking) with 0 in Ha, Hb, Hd.
  change (frameCountRef Scenario.tracking) with 0%Z in Hb, Hd.
  split; [apply Hb; lra|]. split; [apply Ha; lra | apply Hd; lra].
Defined.

(** *** Toggling *)

(** X8.  From a widget that is not tracking: a start that fails leaves it
    not tracking and not loading, with the failure status and the outputs
    untouched, so the next toggle is a start again; a start that succeeds
    makes the next toggle a stop, after which the outputs are neutral and
    the camera helper is not running. *)
Theorem toggle_twice o1 o2 t1 t2 s :
  isTracking s = false ->
  let s1 := toggleTracking o1 t1 s in
  let s2 := toggleTracking o2 t2 s1 in
  isLoading s1 = false /\
  match o1 with
  | CameraStarted =>
      isTracking s1 = true /\ status s1 = "Hand tracking active" /\
      s2 = stopTracking s1 /\
      isTracking s2 = false /\
      fingertips s2 = noFingertips /\ robotMapping s2 = neutral /\
      from_option running false (cameraRef s2) = false
  | _ =>
      isTracking s1 = false /\
      status s1 = "Failed to start camera or MediaPipe" /\
      fingertips s1 = fingertips s /\ robotMapping s1 = robotMapping s /\
      s2 = startTracking o2 t2 s1
  end.
Proof.
  intros Htr.
  destruct s as [tr lo f m rate st hands cam fc lt v c].
  cbv [isTracking] in Htr. subst tr.
  destruct o1, v as [video|], cam as [camera|];
    cbv [toggleTracking startTracking stopTracking initializeMediaPipe
         setIsTracking setIsLoading setFingertips setRobotMapping setFps
         setStatus setHandsRef setCameraRef setFrameCountRef setLastTimeRef
         setCanvasRef
         isTracking isLoading fingertips robotMapping fps status handsRef
         cameraRef frameCountRef lastTimeRef videoRef canvasRef
         option_map from_option running onFrame_isTracking];
    repeat split.
Qed.

Lemma toggle_twice_witness :
  let s1 := toggleTracking CameraStarted 0 init in
  let s2 := toggleTracking CameraStarted 5000 s1 in
  isLoading s1 = false /\
  isTracking s1 = true /\ status s1 = "Hand tracking active" /\
  s2 = stopTracking s1 /\
  isTracking s2 = false /\
  fingertips s2 = noFingertips /\ robotMapping s2 = neutral /\
  from_option running false (cameraRef s2) = false.
Proof.
  apply (toggle_twice CameraStarted CameraStarted 0 5000 init). reflexivity.
Defined.

End WidgetMore.

(** ** More on the route *)

Section RouteMore.
Import Route.

Ltac route_eval :=
  cbv [startCamera stopCamera startTracking stopTracking processHandTracking
       connectToRobot addToConsole onCanvas
       Detect.onBlob Detect.frame Detect.updateRobotFromHandData
       Track.onBlob Track.frame
       setIsConnected setIsCameraActive setIsTracking setConsoleLogs
       setFingertipData setRobotState setVideoRef setCanvasRef setStreamRef setAnimationRef
       setStreams setFrameRequests
       selectedRobot selectedModel isConnected isCameraActive isTracking
       consoleLogs fingertipData robotState videoRef canvasRef streamRef
       animationRef streams frameRequests negb
       thumb indexPip indexTip timestamp].

Ltac logs_bound :=
  cbn [length]; repeat rewrite length_take; cbn [length]; lia.

(** *** The console *)

(** X9.  The console never holds more than 50 lines: a log that respects the
    bound still does after any handler of the route, in both revisions,
    whatever the values a frame callback closed over.  A new line goes
    first; when the log is full the oldest line is dropped. *)
Theorem console_bounded s outcome t1 t2 (random : nat -> R) now
        (reply : Detect.Reply) (reply' : Track.Reply) message
        (connect : ConnectReply) (active tracking : bool) :
  length (consoleLogs s) <= 50 ->
  length (consoleLogs (startCamera outcome t1 s)) <= 50 /\
  length (consoleLogs (stopCamera t1 t2 s)) <= 50 /\
  length (consoleLogs (startTracking t1 s).1) <= 50 /\
  length (consoleLogs (stopTracking t1 s)) <= 50 /\
  length (consoleLogs (processHandTracking active tracking s).1) <= 50 /\
  length (consoleLogs (Detect.frame active tracking reply random now t1 s))
  <= 50 /\
  length (consoleLogs (Track.frame active tracking reply' now t1 s)) <= 50 /\
  length (consoleLogs (connectToRobot connect t1 t2 s)) <= 50 /\
  head (consoleLogs (addToConsole t1 message s))
  = Some ("[" +:+ t1 +:+ "] " +:+ message) /\
  (length (consoleLogs s) = 50 ->
   consoleLogs (addToConsole t1 message s)
   = ("[" +:+ t1 +:+ "] " +:+ message) :: take 49 (consoleLogs s)).
Proof.
  intros Hlen.
  destruct s as [sr sm co ca tr logs f r v c st an ss fr].
  cbv [consoleLogs] in Hlen.
  repeat split.
  - destruct outcome as [tracks | msg]; [destruct v|]; route_eval; logs_bound.
  - destruct tr, st, v, an; route_eval; logs_bound.
  - destruct ca, v, c as [[cw ch [|] cp]|], tr; route_eval;
      cbn [fst has2d]; logs_bound.
  - destruct an; route_eval; logs_bound.
  - destruct active, v, c as [[cw ch [|] cp]|], tracking; route_eval;
      cbn [fst has2d]; logs_bound.
  - destruct active, v, c as [[cw ch [|] cp]|], tracking; route_eval;
      cbn [has2d]; try logs_bound;
      (destruct reply as [| msg | | [|hand hands] conf control];
       route_eval; try logs_bound;
       destruct co; route_eval; try logs_bound;
       destruct (Detect.landmarks hand !! 8%nat), control; route_eval; logs_bound).
  - destruct active, v, c as [[cw ch [|] cp]|], tracking; route_eval;
      cbn [has2d]; try logs_bound;
      (destruct reply' as [| msg | | [[tips|] detected control] conf];
       route_eval; cbn [Track.fingertips Track.hand_detected Track.robot_control];
       try logs_bound;
       destruct detected, control, co; route_eval; logs_bound).
  - destruct connect as [msg [robotData|] | msg |]; route_eval; logs_bound.
Qed.

Lemma console_bounded_witness :
  length (consoleLogs (startCamera (Granted 1) "10:00:00" Scenario.live)) <= 50 /\
  length (consoleLogs (stopCamera "10:00:00" "10:00:01" Scenario.live)) <= 50 /\
  length (consoleLogs (startTracking "10:00:00" Scenario.live).1) <= 50 /\
  length (consoleLogs (stopTracking "10:00:00" Scenario.live)) <= 50 /\
  length (consoleLogs (processHandTracking true false Scenario.live).1) <= 50 /\
  length (consoleLogs (Detect.frame true false Detect.NotOk Scenario.halves
                                    1000 "10:00:00" Scenario.live)) <= 50 /\
  length (consoleLogs (Track.frame true false Track.NotOk 1000 "10:00:00"
                                   Scenario.live)) <= 50.
Proof.
  destruct (console_bounded Scenario.live (Granted 1) "10:00:00" "10:00:01"
              Scenario.halves 1000 Detect.NotOk Track.NotOk ""
              ConnectThrew true false)
    as (H1 & H2 & H3 & H4 & H5 & H6 & H7 & _).
  - change (consoleLogs Scenario.live)
      with ["[10:00:01] Hand tracking started with model: mediapipe";
            "[10:00:00] Camera started successfully";
            "[09:59:59] Robot connected successfully: Connected";
            "[09:59:58] Connecting to robot: ur5e"].
    cbn [length]. lia.
  - repeat split; assumption.
Defined.

(** *** Releasing the camera *)

(** X10.  From any state, [stopCamera] leaves the camera stopped (inactive,
    not tracking, no stream held by the ref or by the video element), every
    track of the stream the ref held is ended, and no other stream is
    touched. *)
Theorem stopCamera_releases t1 t2 s stream tracks :
  streamRef s = Some stream ->
  streams s !! stream = Some tracks ->
  let s' := stopCamera t1 t2 s in
  stopped s' = true /\
  streams s' !! stream = Some (replicate (length tracks) false) /\
  (forall other, other <> stream -> streams s' !! other = streams s !! other).
Proof.
  intros Hst Hss.
  destruct s as [sr sm co ca tr logs f r v c st an ss fr].
  cbv [streamRef streams] in Hst, Hss. subst st. cbv zeta.
  assert (Hfalse : (fun _ : bool => false) <$> tracks
                   = replicate (length tracks) false).
  { clear. induction tracks as [|b l IH]; [reflexivity|].
    cbn. f_equal. exact IH. }
  destruct tr, v as [[src rs vw vh]|], an; route_eval;
    (split; [reflexivity|]);
    (split; [rewrite lookup_alter_eq, Hss; cbn [fmap option_fmap option_map];
             f_equal; exact Hfalse
            | intros other Hne; apply lookup_alter_ne; congruence]).
Qed.

Lemma stopCamera_releases_witness :
  let s' := stopCamera "10:05:00" "10:05:00" Scenario.live in
  stopped s' = true /\
  streams s' !! 0%nat = Some (replicate (length [true]) false) /\
  (forall other, other <> 0%nat ->
     streams s' !! other = streams Scenario.live !! other).
Proof.
  apply (stopCamera_releases "10:05:00" "10:05:00" Scenario.live 0%nat [true]);
    reflexivity.
Defined.

Lemma noLiveTrack_insert s stream tracks :
  Notions.noLiveTrack s ->
  Forall (fun live => live = false) tracks ->
  map_Forall (fun _ ts => Forall (fun live => live = false) ts)
             (<[stream := tracks]> (streams s)).
Proof.
  intros Hs Ht. apply map_Forall_insert_2; assumption.
Qed.

(** X11.  Starting the camera and stopping it again leaves no live track
    behind: if no track was live before, the video element being mounted,
    none is live after, and the camera is stopped. *)
Theorem start_stop_leaves_no_live_track tracks t1 t2 t3 s :
  Notions.noLiveTrack s ->
  is_Some (videoRef s) ->
  let s' := stopCamera t2 t3 (startCamera (Granted tracks) t1 s) in
  Notions.noLiveTrack s' /\ stopped s' = true /\
  isCameraActive (startCamera (Granted tracks) t1 s) = true.
Proof.
  intros Hs [video Hv].
  destruct s as [sr sm co ca tr logs f r v c st an ss fr].
  cbv [videoRef] in Hv. subst v.
  unfold Notions.noLiveTrack in *. cbv [streams] in Hs. cbv zeta.
  destruct tr, an; route_eval;
    (split; [|split; reflexivity]);
    rewrite alter_insert_eq;
    (apply map_Forall_insert_2; [|exact Hs]);
    apply Forall_fmap, Forall_forall; reflexivity.
Qed.

Lemma start_stop_leaves_no_live_track_witness :
  let s' := stopCamera "10:05:00" "10:05:00"
              (startCamera (Granted 2) "10:00:00" init) in
  Notions.noLiveTrack s' /\ stopped s' = true /\
  isCameraActive (startCamera (Granted 2) "10:00:00" init) = true.
Proof.
  apply (start_stop_leaves_no_live_track 2 "10:00:00" "10:05:00" "10:05:00" init).
  - unfold Notions.noLiveTrack. change (streams init) with (∅ : gmap nat (list bool)).
    apply map_Forall_empty.
  - eexists. reflexivity.
Defined.

(** *** The animation-frame loop *)

(** X12.  A click that starts the tracking, with the camera on and the two
    elements mounted, hands over exactly one frame and requests no
    animation frame: the [processHandTracking] it calls still sees
    [isTracking] false.  The pending requests and the handle kept in
    [animationRef] are those from before, and the route shows the tracking
    as on. *)
Theorem start_click_sends_one_frame t s video canvas :
  isCameraActive s = true ->
  isTracking s = false ->
  videoRef s = Some video ->
  canvasRef s = Some canvas ->
  has2d canvas = true ->
  let click := startTracking t s in
  click.2 = true /\
  frameRequests click.1 = frameRequests s /\
  animationRef click.1 = animationRef s /\
  isTracking click.1 = true /\
  click = processHandTracking true false
            (addToConsole t
               ("Hand tracking started with model: " +:+ selectedModel s)
               (setIsTracking true s)).
Proof.
  intros Hca Htr Hv Hc H2d.
  destruct s as [sr sm co ca tr logs f r v c st an ss fr].
  cbv [isCameraActive isTracking videoRef canvasRef] in Hca, Htr, Hv, Hc.
  subst ca tr v c. destruct canvas as [cw ch c2d cp].
  cbv [has2d] in H2d. subst c2d.
  route_eval. cbn [has2d negb fst snd]. repeat split.
Qed.

Lemma start_click_sends_one_frame_witness :
  let click := startTracking "10:00:01" Scenario.cameraOn in
  click.2 = true /\
  frameRequests click.1 = frameRequests Scenario.cameraOn /\
  animationRef click.1 = animationRef Scenario.cameraOn /\
  isTracking click.1 = true.
Proof.
  cbv zeta.
  destruct (start_click_sends_one_frame "10:00:01" Scenario.cameraOn
              (mkVideo (Some 0%nat) 0 0 0) (mkCanvas 300 150 true None))
    as (H1 & H2 & H3 & H4 & _); try reflexivity.
  repeat split; assumption.
Defined.

(** *** Replies *)

(** X14.  While no robot is connected, no reply changes the robot state, in
    either revision. *)
Theorem robot_state_needs_connection s (random : nat -> R) now clock
        (reply : Detect.Reply) (reply' : Track.Reply) :
  isConnected s = false ->
  robotState (Detect.onBlob reply random now clock s) = robotState s /\
  robotState (Track.onBlob reply' now clock s) = robotState s /\
  (forall active tracking,
     robotState (Detect.frame active tracking reply random now clock s)
     = robotState s) /\
  (forall active tracking,
     robotState (Track.frame active tracking reply' now clock s)
     = robotState s).
Proof.
  intros Hco.
  destruct s as [sr sm co ca tr logs f r v c st an ss fr].
  cbv [isConnected] in Hco. subst co.
  assert (HD : forall ca' tr' logs' f' v' c' st' an' ss' fr',
             robotState (Detect.onBlob reply random now clock
               (mkState sr sm false ca' tr' logs' f' r v' c' st' an' ss' fr')) = r).
  { intros. destruct reply as [| msg | | [|hand hands] conf control];
      route_eval; reflexivity. }
  assert (HT : forall ca' tr' logs' f' v' c' st' an' ss' fr',
             robotState (Track.onBlob reply' now clock
               (mkState sr sm false ca' tr' logs' f' r v' c' st' an' ss' fr')) = r).
  { intros. destruct reply' as [| msg | | [[tips|] detected control] conf];
      route_eval;
      cbn [Track.fingertips Track.hand_detected Track.robot_control];
      try reflexivity.
    destruct detected, control; reflexivity. }
  split; [apply HD|]. split; [apply HT|].
  split.
  - intros active tracking.
    destruct active, v, c as [[cw ch [|] cp]|], tracking;
      cbv [Detect.frame processHandTracking isCameraActive videoRef canvasRef
           isTracking negb has2d setCanvasRef setAnimationRef setFrameRequests
           selectedRobot selectedModel isConnected consoleLogs fingertipData
           robotState streamRef animationRef streams frameRequests];
      try reflexivity; apply HD.
  - intros active tracking.
    destruct active, v, c as [[cw ch [|] cp]|], tracking;
      cbv [Track.frame processHandTracking isCameraActive videoRef canvasRef
           isTracking negb has2d setCanvasRef setAnimationRef setFrameRequests
           selectedRobot selectedModel isConnected consoleLogs fingertipData
           robotState streamRef animationRef streams frameRequests];
      try reflexivity; apply HT.
Qed.

Lemma robot_state_needs_connection_witness :
  robotState (Detect.onBlob (Detect.Ok [Detect.mkHand Scenario.hand] "0.90"
                               (Some (mkRobotState [] restPose gripper_closed
                                                   false 1)))
                            Scenario.halves 1000 "10:00:02" Scenario.cameraOnly)
  = robotState Scenario.cameraOnly.
Proof.
  apply (robot_state_needs_connection Scenario.cameraOnly Scenario.halves 1000
           "10:00:02"
           (Detect.Ok [Detect.mkHand Scenario.hand] "0.90"
              (Some (mkRobotState [] restPose gripper_closed false 1)))
           Track.NoBlob).
  reflexivity.
Defined.

(** X15.  In the [/detect_hands] revision a hand with too few landmarks does
    not throw: each fingertip is present exactly when its landmark exists
    (index 4, 6, 8), further hands are ignored, and the robot state is
    replaced only when the route is connected, the index tip exists and the
    control request succeeded. *)
Theorem detect_missing_landmarks hand hands confidence control
        (random : nat -> R) now clock s :
  let s' := Detect.onBlob (Detect.Ok (hand :: hands) confidence control)
                          random now clock s in
  (is_Some (thumb (fingertipData s')) <-> 4 < length (Detect.landmarks hand)) /\
  (is_Some (indexPip (fingertipData s')) <-> 6 < length (Detect.landmarks hand)) /\
  (is_Some (indexTip (fingertipData s')) <-> 8 < length (Detect.landmarks hand)) /\
  timestamp (fingertipData s') = now /\
  fingertipData s'
  = fingertipData (Detect.onBlob (Detect.Ok [hand] confidence control)
                                 random now clock s) /\
  robotState s'
  = match isConnected s, Detect.landmarks hand !! 8%nat, control with
    | true, Some _, Some robotData => robotData
    | _, _, _ => robotState s
    end.
Proof.
  destruct s as [sr sm co ca tr logs f r v c st an ss fr].
  cbv zeta.
  assert (E : fingertipData
                (Detect.onBlob (Detect.Ok (hand :: hands) confidence control)
                   random now clock
                   (mkState sr sm co ca tr logs f r v c st an ss fr))
              = mkFingertipData (Detect.landmarks hand !! 4%nat)
                  (Detect.landmarks hand !! 6%nat)
                  (Detect.landmarks hand !! 8%nat) now).
  { destruct co; route_eval; [|reflexivity].
    destruct (Detect.landmarks hand !! 8%nat), control; reflexivity. }
  rewrite E. cbn [thumb indexPip indexTip timestamp].
  split; [apply lookup_lt_is_Some|].
  split; [apply lookup_lt_is_Some|].
  split; [apply lookup_lt_is_Some|].
  split; [reflexivity|].
  split.
  - destruct co; route_eval; [|reflexivity].
    destruct (Detect.landmarks hand !! 8%nat), control; reflexivity.
  - destruct co; route_eval; [|reflexivity].
    destruct (Detect.landmarks hand !! 8%nat), control; reflexivity.
Qed.

(** X16.  A reply never touches the lifecycle of the camera or of the
    tracking: in both revisions the reply handler leaves the connection
    flag, the camera and tracking flags, the video element, the streams and
    the animation-frame requests as they were, whatever the reply. *)
Theorem reply_keeps_lifecycle s (random : nat -> R) now clock
        (reply : Detect.Reply) (reply' : Track.Reply) :
  let a := Detect.onBlob reply random now clock s in
  let b := Track.onBlob reply' now clock s in
  (isConnected a, isCameraActive a, isTracking a, videoRef a, streamRef a,
   animationRef a, streams a, frameRequests a)
  = (isConnected s, isCameraActive s, isTracking s, videoRef s, streamRef s,
     animationRef s, streams s, frameRequests s) /\
  (isConnected b, isCameraActive b, isTracking b, videoRef b, streamRef b,
   animationRef b, streams b, frameRequests b)
  = (isConnected s, isCameraActive s, isTracking s, videoRef s, streamRef s,
     animationRef s, streams s, frameRequests s).
Proof.
  destruct s as [sr sm co ca tr logs f r v c st an ss fr].
  cbv zeta. split.
  - destruct reply as [| msg | | [|hand hands] conf control];
      route_eval; try reflexivity.
    destruct co; route_eval; [|reflexivity].
    destruct (Detect.landmarks hand !! 8%nat), control; reflexivity.
  - destruct reply' as [| msg | | [[tips|] detected control] conf];
      route_eval;
      cbn [Track.fingertips Track.hand_detected Track.robot_control];
      try reflexivity.
    destruct detected, control, co; reflexivity.
Qed.

End RouteMore.

(** ** More on the live channel *)

Section IntegrationMore.
Import Integration.

Ltac chan_eval :=
  cbv [connectWebSocket onopen onclose onerror onmessage
       handleWebSocketMessage startTracking stopTracking
       currentIsOpen setTimeout clearTimeout send pendingReconnects
       setIsConnected setIsTracking setTrackingData setConnectionStatus
       setWsRef setReconnectTimeoutRef setSockets setTimers setNextTimer
       setSent
       isConnected isTracking robotType trackingData connectionStatus wsRef
       reconnectTimeoutRef sockets timers nextTimer sent negb andb].

(** *** Disconnecting *)

(** [disconnectWebSocket], cell by cell. *)
Lemma disconnectWebSocket_cells s :
  disconnectWebSocket s =
  mkState (isConnected s) (isTracking s) (robotType s) (trackingData s)
          (connectionStatus s) None None
          (match wsRef s with
           | Some ws =>
               match sockets s !! ws with
               | Some CONNECTING | Some OPEN => <[ws := CLOSING]> (sockets s)
               | _ => sockets s
               end
           | None => sockets s
           end)
          (match reconnectTimeoutRef s with
           | Some handle => delete handle (timers s)
           | None => timers s
           end)
          (nextTimer s) (sent s).
Proof.
  destruct s as [co tr rt td cs ws rr so ti nt se].
  unfold disconnectWebSocket, close.
  cbn [isConnected isTracking robotType trackingData connectionStatus wsRef
       reconnectTimeoutRef sockets timers nextTimer sent].
  destruct ws as [ws|]; [destruct (so !! ws) as [[]|]|]; destruct rr; reflexivity.
Qed.

(** X17.  [disconnectWebSocket] is idempotent; after it the component holds
    no socket and no reconnect timeout, the timeout it held is no longer
    pending, and the flags it shows are untouched (they change only when the
    close event arrives). *)
Theorem disconnect_idempotent s :
  let s' := disconnectWebSocket s in
  disconnectWebSocket s' = s' /\
  wsRef s' = None /\ reconnectTimeoutRef s' = None /\
  from_option (fun handle => timers s' !! handle) None (reconnectTimeoutRef s)
  = None /\
  (isConnected s', isTracking s', connectionStatus s')
  = (isConnected s, isTracking s, connectionStatus s).
Proof.
  cbv zeta.
  rewrite (disconnectWebSocket_cells (disconnectWebSocket s)).
  rewrite (disconnectWebSocket_cells s).
  cbn [isConnected isTracking robotType trackingData connectionStatus wsRef
       reconnectTimeoutRef sockets timers nextTimer sent].
  repeat split.
  destruct (reconnectTimeoutRef s) as [handle|]; cbn [from_option];
    [apply lookup_delete_eq | reflexivity].
Qed.

(** *** What every reachable state satisfies *)

Ltac cells :=
  cbv [Notions.timersBelowNext Notions.consistent
       setIsConnected setIsTracking setTrackingData setConnectionStatus
       setWsRef setReconnectTimeoutRef setSockets setTimers setNextTimer
       setSent clearTimeout send
       isConnected isTracking robotType trackingData connectionStatus wsRef
       reconnectTimeoutRef sockets timers nextTimer sent] in *.

Lemma fresh_socket_other (so : gmap nat ReadyState) ws r :
  so !! ws = Some r -> fresh (dom so) <> ws.
Proof.
  intros Hws Heq. apply (is_fresh (dom so)). rewrite Heq.
  apply elem_of_dom. eauto.
Qed.

Lemma connectWebSocket_keeps throws s :
  Notions.timersBelowNext s /\ Notions.consistent s ->
  Notions.timersBelowNext (connectWebSocket throws s) /\
  Notions.consistent (connectWebSocket throws s).
Proof.
  intros Hinv. unfold connectWebSocket.
  destruct (currentIsOpen s); [exact Hinv|].
  destruct throws; destruct s as [co tr rt td cs ws rr so ti nt se];
    cells; destruct Hinv as (HT & HA & HB & HC & HD).
  - repeat split; try assumption. discriminate.
  - repeat split; try assumption.
    + intros w [= <-]. rewrite lookup_insert_eq. eauto.
    + intros Hco. destruct (HD Hco) as (w & Hw). exists w.
      destruct Hw as [Hw | Hw];
        rewrite lookup_insert_ne by (eapply fresh_socket_other; eauto); auto.
Qed.

Lemma clearTimeout_keeps handle s :
  Notions.timersBelowNext s /\ Notions.consistent s ->
  Notions.timersBelowNext (clearTimeout handle s) /\
  Notions.consistent (clearTimeout handle s).
Proof.
  destruct s as [co tr rt td cs ws rr so ti nt se]. cells.
  intros (HT & Hc). split; [|exact Hc].
  intros h due Hh. apply lookup_delete_Some in Hh as [_ Hh]. eauto.
Qed.

Lemma startTracking_keeps throws s :
  Notions.timersBelowNext s /\ Notions.consistent s ->
  Notions.timersBelowNext (startTracking throws s) /\
  Notions.consistent (startTracking throws s).
Proof.
  intros Hinv. unfold startTracking.
  destruct (isConnected s) eqn:Hco; cbn [negb];
    [|apply connectWebSocket_keeps, Hinv].
  destruct s as [co tr rt td cs ws rr so ti nt se].
  cbv [isConnected] in Hco. subst co.
  cbv [setIsTracking setConnectionStatus currentIsOpen
       isConnected isTracking robotType trackingData connectionStatus wsRef
       reconnectTimeoutRef sockets timers nextTimer sent].
  cells. destruct Hinv as (HT & HA & HB & HC & HD).
  destruct ws as [w|]; [destruct (bool_decide (so !! w = Some OPEN))|];
    cells; repeat split; auto.
Qed.

Lemma stopTracking_keeps s :
  Notions.timersBelowNext s /\ Notions.consistent s ->
  Notions.timersBelowNext (stopTracking s) /\
  Notions.consistent (stopTracking s).
Proof.
  intros Hinv.
  destruct s as [co tr rt td cs ws rr so ti nt se].
  cbv [stopTracking setIsTracking setConnectionStatus currentIsOpen
       isConnected isTracking robotType trackingData connectionStatus wsRef
       reconnectTimeoutRef sockets timers nextTimer sent].
  cells. destruct Hinv as (HT & HA & HB & HC & HD).
  destruct ws as [w|]; [destruct (bool_decide (so !! w = Some OPEN))|];
    cells; repeat split; auto; discriminate.
Qed.

Lemma disconnectWebSocket_keeps s :
  Notions.timersBelowNext s /\ Notions.consistent s ->
  Notions.timersBelowNext (disconnectWebSocket s) /\
  Notions.consistent (disconnectWebSocket s).
Proof.
  intros Hinv. rewrite disconnectWebSocket_cells.
  destruct s as [co tr rt td cs ws rr so ti nt se].
  cells. destruct Hinv as (HT & HA & HB & HC & HD).
  split; [|split; [|split; [|split]]]; try assumption.
  - intros h due Hh. destruct rr as [handle|]; [|eauto].
    apply lookup_delete_Some in Hh as [_ Hh]. eauto.
  - discriminate.
  - intros Hco. destruct (HD Hco) as (w & Hw). exists w.
    destruct ws as [ws|]; [|exact Hw].
    destruct (decide (ws = w)) as [-> | Hne].
    + destruct Hw as [Hw | Hw]; rewrite Hw; [|auto].
      right. apply lookup_insert_eq.
    + destruct (so !! ws) as [[]|]; try exact Hw;
        rewrite lookup_insert_ne by exact Hne; exact Hw.
Qed.

Lemma onopen_keeps ws s :
  Notions.timersBelowNext s /\ Notions.consistent s ->
  Notions.timersBelowNext (onopen (setSockets (<[ws := OPEN]> (sockets s)) s)) /\
  Notions.consistent (onopen (setSockets (<[ws := OPEN]> (sockets s)) s)).
Proof.
  intros Hinv.
  destruct s as [co tr rt td cs w rr so ti nt se].
  destruct rr as [handle|]; cbv [onopen]; cells;
    destruct Hinv as (HT & HA & HB & HC & HD);
    (split; [|split; [|split; [|split]]]); try discriminate; auto.
  - intros h due Hh. apply lookup_delete_Some in Hh as [_ Hh]. eauto.
  - intros w' Hw'. apply lookup_insert_is_Some'. right. auto.
  - intros _. exists ws. left. apply lookup_insert_eq.
  - intros w' Hw'. apply lookup_insert_is_Some'. right. auto.
  - intros _. exists ws. left. apply lookup_insert_eq.
Qed.

Lemma onmessage_keeps m s :
  Notions.timersBelowNext s /\ Notions.consistent s ->
  Notions.timersBelowNext (onmessage m s) /\ Notions.consistent (onmessage m s).
Proof.
  intros Hinv. destruct m as [|type data]; [exact Hinv|].
  unfold onmessage, handleWebSocketMessage.
  destruct (String.eqb type "tracking_result"); [|exact Hinv].
  destruct s. cells. exact Hinv.
Qed.

Lemma onerror_keeps s :
  Notions.timersBelowNext s /\ Notions.consistent s ->
  Notions.timersBelowNext (onerror s) /\ Notions.consistent (onerror s).
Proof.
  destruct s. cbv [onerror]. cells.
  intros (HT & HA & HB & HC & HD). repeat split; auto. discriminate.
Qed.

Lemma onclose_keeps now ws s :
  Notions.timersBelowNext s /\ Notions.consistent s ->
  Notions.timersBelowNext
    (onclose now (setSockets (<[ws := CLOSED]> (sockets s)) s)) /\
  Notions.consistent
    (onclose now (setSockets (<[ws := CLOSED]> (sockets s)) s)).
Proof.
  destruct s as [co tr rt td cs w rr so ti nt se].
  cbv [onclose setTimeout]. cells.
  intros (HT & HA & HB & HC & HD).
  split; [|split; [|split; [|split]]]; try discriminate.
  - intros h due Hh. apply lookup_insert_Some in Hh as [[<- _] | [_ Hh]].
    + lia.
    + specialize (HT h due Hh). lia.
  - intros w' Hw'. apply lookup_insert_is_Some'. right. auto.
Qed.

Lemma step_keeps now e s s' :
  step now e s = Some s' ->
  Notions.timersBelowNext s /\ Notions.consistent s ->
  Notions.timersBelowNext s' /\ Notions.consistent s'.
Proof.
  intros Hstep Hinv. destruct e; unfold step in Hstep.
  - destruct (isConnected s); [discriminate|].
    injection Hstep as <-. apply connectWebSocket_keeps, Hinv.
  - destruct (isConnected s && negb (isTracking s)); [|discriminate].
    injection Hstep as <-. apply startTracking_keeps, Hinv.
  - destruct (isConnected s && isTracking s); [|discriminate].
    injection Hstep as <-. apply stopTracking_keeps, Hinv.
  - injection Hstep as <-. apply disconnectWebSocket_keeps, Hinv.
  - destruct (sockets s !! ws) as [[]|]; try discriminate.
    injection Hstep as <-. apply onopen_keeps, Hinv.
  - destruct (sockets s !! ws) as [[]|]; try discriminate.
    injection Hstep as <-. apply onmessage_keeps, Hinv.
  - destruct (sockets s !! ws) as [[]|]; try discriminate;
      injection Hstep as <-; apply onerror_keeps, Hinv.
  - destruct (sockets s !! ws) as [[]|]; try discriminate;
      injection Hstep as <-; apply onclose_keeps, Hinv.
  - destruct (timers s !! handle) as [due|]; [|discriminate].
    destruct (due <=? now)%N; [|discriminate].
    injection Hstep as <-.
    apply connectWebSocket_keeps, clearTimeout_keeps, Hinv.
Qed.

Lemma run_keeps start es s s' :
  run start es s = Some s' ->
  Notions.timersBelowNext s /\ Notions.consistent s ->
  Notions.timersBelowNext s' /\ Notions.consistent s'.
Proof.
  revert start s. induction es as [|[now e] es IH]; intros start s Hrun Hinv.
  - injection Hrun as <-. exact Hinv.
  - cbn [run] in Hrun. destruct (now <? start)%N; [discriminate|].
    destruct (step now e s) as [s1|] eqn:Hstep; [|discriminate].
    apply (IH now s1 Hrun). exact (step_keeps now e s s1 Hstep Hinv).
Qed.

Lemma init_keeps : Notions.timersBelowNext init /\ Notions.consistent init.
Proof.
  split.
  - intros h due Hh. change (timers init) with (∅ : gmap positive N) in Hh.
    rewrite lookup_empty in Hh. discriminate.
  - repeat split; discriminate.
Qed.

Lemma reachable_keeps s :
  Notions.reachable s -> Notions.timersBelowNext s /\ Notions.consistent s.
Proof.
  intros (start & es & Hrun). exact (run_keeps start es init s Hrun init_keeps).
Qed.

Lemma reachable_one_click : 
  Notions.reachable (connectWebSocket false init).
Proof. exists 0%N, [(0%N, ClickConnect false)]. reflexivity. Qed.

(** X18.  In every state the mounted component can reach, the flags agree:
    tracking only while connected, the status "tracking" only while
    tracking, the socket ref on a socket that exists, and connected only
    while some socket is open or closing. *)
Theorem reachable_consistent s :
  Notions.reachable s ->
  (isTracking s = true -> isConnected s = true) /\
  (connectionStatus s = "tracking" -> isTracking s = true) /\
  (forall ws, wsRef s = Some ws -> is_Some (sockets s !! ws)) /\
  (isConnected s = true ->
   exists ws, sockets s !! ws = Some OPEN \/ sockets s !! ws = Some CLOSING).
Proof.
  intros Hr. exact (proj2 (reachable_keeps s Hr)).
Qed.

Lemma reachable_consistent_witness :
  (isTracking (connectWebSocket false init) = true ->
   isConnected (connectWebSocket false init) = true) /\
  (connectionStatus (connectWebSocket false init) = "tracking" ->
   isTracking (connectWebSocket false init) = true) /\
  (forall ws, wsRef (connectWebSocket false init) = Some ws ->
              is_Some (sockets (connectWebSocket false init) !! ws)) /\
  (isConnected (connectWebSocket false init) = true ->
   exists ws, sockets (connectWebSocket false init) !! ws = Some OPEN \/
              sockets (connectWebSocket false init) !! ws = Some CLOSING).
Proof.
  exact (reachable_consistent (connectWebSocket false init) reachable_one_click).
Defined.

(** X19.  In every reachable state, a close event of a socket leaves exactly
    one more reconnect pending than before, due 3000 ms after the event,
    under a handle that was not pending, and that handle is the one the ref
    then holds. *)
Theorem close_adds_one_reconnect now ws s s' :
  Notions.reachable s ->
  step now (SocketClose ws) s = Some s' ->
  pendingReconnects s' = S (pendingReconnects s) /\
  timers s !! nextTimer s = None /\
  timers s' !! nextTimer s = Some (now + 3000)%N /\
  reconnectTimeoutRef s' = Some (nextTimer s) /\
  isConnected s' = false /\ connectionStatus s' = "disconnected".
Proof.
  intros Hr Hstep.
  destruct (reachable_keeps s Hr) as [HT _].
  assert (Hfresh : timers s !! nextTimer s = None).
  { destruct (timers s !! nextTimer s) as [due|] eqn:E; [|reflexivity].
    specialize (HT _ _ E). lia. }
  unfold step in Hstep.
  assert (Hs' : s' = onclose now (setSockets (<[ws := CLOSED]> (sockets s)) s)).
  { destruct (sockets s !! ws) as [[]|]; try discriminate;
      injection Hstep as <-; reflexivity. }
  subst s'.
  destruct (onclose_sets_one_timeout now
              (setSockets (<[ws := CLOSED]> (sockets s)) s))
    as (H1 & H2 & H3 & H4 & H5).
  { destruct s. exact Hfresh. }
  destruct s as [co tr rt td cs w rr so ti nt se].
  cbv [setSockets pendingReconnects
       isConnected isTracking robotType trackingData connectionStatus wsRef
       reconnectTimeoutRef sockets timers nextTimer sent] in *.
  rewrite H2. rewrite lookup_insert_eq. repeat split; assumption.
Qed.

Lemma close_adds_one_reconnect_witness :
  exists s',
    step 100 (SocketClose 0) (connectWebSocket false init) = Some s' /\
    pendingReconnects s' = S (pendingReconnects (connectWebSocket false init)) /\
    timers s' !! nextTimer (connectWebSocket false init) = Some (100 + 3000)%N.
Proof.
  eexists. split; [vm_compute; reflexivity|].
  destruct (close_adds_one_reconnect 100 0 (connectWebSocket false init) _
              reachable_one_click eq_refl) as (H1 & _ & H3 & _).
  split; [exact H1 | exact H3].
Defined.

(** *** Sockets and timeouts along a run *)

Lemma connectWebSocket_maps throws s :
  (sockets (connectWebSocket throws s) = sockets s \/
   sockets (connectWebSocket throws s)
   = <[fresh (dom (sockets s)) := CONNECTING]> (sockets s)) /\
  timers (connectWebSocket throws s) = timers s.
Proof.
  unfold connectWebSocket.
  destruct (currentIsOpen s); [auto|].
  destruct throws; destruct s; cbv [setConnectionStatus setWsRef setSockets
    sockets timers]; auto.
Qed.

Lemma startTracking_maps throws s :
  (sockets (startTracking throws s) = sockets s \/
   sockets (startTracking throws s)
   = <[fresh (dom (sockets s)) := CONNECTING]> (sockets s)) /\
  timers (startTracking throws s) = timers s.
Proof.
  unfold startTracking.
  destruct (isConnected s); cbn [negb]; [|apply connectWebSocket_maps].
  destruct s as [co tr rt td cs ws rr so ti nt se].
  cbv [setIsTracking setConnectionStatus currentIsOpen send setSent
       isConnected isTracking robotType trackingData connectionStatus wsRef
       reconnectTimeoutRef sockets timers nextTimer sent].
  destruct ws as [w|]; [destruct (bool_decide (so !! w = Some OPEN))|]; auto.
Qed.

Lemma stopTracking_maps s :
  sockets (stopTracking s) = sockets s /\ timers (stopTracking s) = timers s.
Proof.
  destruct s as [co tr rt td cs ws rr so ti nt se].
  cbv [stopTracking setIsTracking setConnectionStatus currentIsOpen send
       setSent
       isConnected isTracking robotType trackingData connectionStatus wsRef
       reconnectTimeoutRef sockets timers nextTimer sent].
  destruct ws as [w|]; [destruct (bool_decide (so !! w = Some OPEN))|]; auto.
Qed.

Lemma onopen_maps s :
  sockets (onopen s) = sockets s /\
  (timers (onopen s) = timers s \/
   exists handle, timers (onopen s) = delete handle (timers s)).
Proof.
  destruct s as [co tr rt td cs ws rr so ti nt se].
  destruct rr as [handle|];
    cbv [onopen clearTimeout setIsConnected setConnectionStatus
         setReconnectTimeoutRef setTimers
         isConnected isTracking robotType trackingData connectionStatus wsRef
         reconnectTimeoutRef sockets timers nextTimer sent]; eauto.
Qed.

Lemma onmessage_maps m s :
  sockets (onmessage m s) = sockets s /\ timers (onmessage m s) = timers s.
Proof.
  destruct m as [|type data]; [auto|].
  unfold onmessage, handleWebSocketMessage.
  destruct (String.eqb type "tracking_result"); [|auto].
  destruct s; auto.
Qed.

Lemma size_delete_le (handle : positive) (ti : gmap positive N) :
  size (delete handle ti) <= size ti.
Proof. apply map_subseteq_size, delete_subseteq. Qed.

(** X21.  Only a close event adds a reconnect, and at most one; only a call
    of [connectWebSocket] (a click on Connect or Start, a timeout coming
    due) adds a socket, and at most one; no event removes a socket. *)
Theorem reconnects_only_from_close now e s s' :
  step now e s = Some s' ->
  match e with
  | SocketClose _ =>
      pendingReconnects s' <= S (pendingReconnects s) /\
      size (sockets s') = size (sockets s)
  | ClickConnect _ | ClickStartTracking _ | TimerFires _ _ =>
      pendingReconnects s' <= pendingReconnects s /\
      size (sockets s) <= size (sockets s') <= S (size (sockets s))
  | _ =>
      pendingReconnects s' <= pendingReconnects s /\
      size (sockets s') = size (sockets s)
  end.
Proof.
  intros Hstep.
  assert (Hnew : forall so : gmap nat ReadyState,
             size so <= size (<[fresh (dom so) := CONNECTING]> so) <= S (size so)).
  { intros so. rewrite map_size_insert_None; [lia|].
    apply not_elem_of_dom, is_fresh. }
  unfold pendingReconnects. destruct e; unfold step in Hstep.
  - destruct (isConnected s); [discriminate|]. injection Hstep as <-.
    destruct (connectWebSocket_maps throws s) as [[E | E] ->]; rewrite E;
      [lia | split; [lia | apply Hnew]].
  - destruct (isConnected s && negb (isTracking s)); [|discriminate].
    injection Hstep as <-.
    destruct (startTracking_maps throws s) as [[E | E] ->]; rewrite E;
      [lia | split; [lia | apply Hnew]].
  - destruct (isConnected s && isTracking s); [|discriminate].
    injection Hstep as <-.
    destruct (stopTracking_maps s) as [-> ->]. lia.
  - injection Hstep as <-. rewrite disconnectWebSocket_cells.
    cbn [sockets timers]. split.
    + destruct (reconnectTimeoutRef s); [apply size_delete_le | lia].
    + destruct (wsRef s) as [w|]; [|reflexivity].
      destruct (sockets s !! w) as [[]|] eqn:Hw; try reflexivity;
        apply map_size_insert_Some; eauto.
  - destruct (sockets s !! ws) as [[]|] eqn:Hw; try discriminate.
    injection Hstep as <-.
    destruct (onopen_maps (setSockets (<[ws := OPEN]> (sockets s)) s))
      as [-> Ht].
    destruct s as [co tr rt td cs w rr so ti nt se].
    cbv [setSockets sockets timers] in *. split.
    + destruct Ht as [-> | [handle ->]]; [lia | apply size_delete_le].
    + apply map_size_insert_Some; eauto.
  - destruct (sockets s !! ws) as [[]|]; try discriminate.
    injection Hstep as <-. destruct (onmessage_maps m s) as [-> ->]. lia.
  - destruct (sockets s !! ws) as [[]|]; try discriminate;
      injection Hstep as <-; destruct s;
      cbv [onerror setConnectionStatus sockets timers]; lia.
  - destruct (sockets s !! ws) as [[]|] eqn:Hw; try discriminate;
      injection Hstep as <-;
      destruct s as [co tr rt td cs w rr so ti nt se];
      cbv [onclose setTimeout setIsConnected setIsTracking setConnectionStatus
           setReconnectTimeoutRef setNextTimer setTimers setSockets
           isConnected isTracking robotType trackingData connectionStatus wsRef
           reconnectTimeoutRef sockets timers nextTimer sent] in *;
      (split; [rewrite map_size_insert; destruct (ti !! nt); cbn; lia
              | apply map_size_insert_Some; eauto]).
  - destruct (timers s !! handle) as [due|]; [|discriminate].
    destruct (due <=? now)%N; [|discriminate].
    injection Hstep as <-.
    destruct (connectWebSocket_maps throws (clearTimeout handle s))
      as [[E | E] ->]; rewrite E;
      destruct s as [co tr rt td cs w rr so ti nt se];
      cbv [clearTimeout setTimers sockets timers];
      (split; [apply size_delete_le|]); [lia | apply Hnew].
Qed.

Lemma reconnects_only_from_close_witness :
  exists s',
    step 100 (SocketClose 0) (connectWebSocket false init) = Some s' /\
    pendingReconnects s' <= S (pendingReconnects (connectWebSocket false init)) /\
    size (sockets s') = size (sockets (connectWebSocket false init)).
Proof.
  eexists. split; [vm_compute; reflexivity|].
  exact (reconnects_only_from_close 100 (SocketClose 0)
           (connectWebSocket false init) _ eq_refl).
Defined.

(** *** Timeouts that come due *)

Lemma currentIsOpen_clearTimeout handle s :
  currentIsOpen (clearTimeout handle s) = currentIsOpen s.
Proof. destruct s. reflexivity. Qed.

(** X22.  While the current socket is open, a reconnect timeout that comes
    due is harmless: it is removed from the pending ones and nothing else
    happens, no socket is created and the ref stays on the open socket. *)
Theorem stale_timeout_harmless now handle due throws s :
  currentIsOpen s = true ->
  timers s !! handle = Some due ->
  (due <= now)%N ->
  step now (TimerFires handle throws) s = Some (clearTimeout handle s) /\
  sockets (clearTimeout handle s) = sockets s /\
  wsRef (clearTimeout handle s) = wsRef s /\
  timers (clearTimeout handle s) = delete handle (timers s).
Proof.
  intros Hopen Hdue Hle.
  unfold step. rewrite Hdue.
  apply N.leb_le in Hle. rewrite Hle.
  unfold connectWebSocket. rewrite currentIsOpen_clearTimeout, Hopen.
  destruct s. repeat split.
Qed.

Lemma stale_timeout_harmless_witness :
  step 3200 (TimerFires 1 false) Scenario.reopened
  = Some (clearTimeout 1 Scenario.reopened) /\
  sockets (clearTimeout 1 Scenario.reopened) = sockets Scenario.reopened /\
  wsRef (clearTimeout 1 Scenario.reopened) = wsRef Scenario.reopened /\
  timers (clearTimeout 1 Scenario.reopened)
  = delete 1%positive (timers Scenario.reopened).
Proof.
  apply (stale_timeout_harmless 3200 1 3200 false Scenario.reopened).
  - vm_compute. reflexivity.
  - vm_compute. reflexivity.
  - lia.
Defined.

(** *** A disconnect that is final *)

(** X23.  If every socket has already closed and the only reconnect pending
    is the one the ref holds, then after [disconnectWebSocket] nothing can
    happen any more without a click: no socket event and no timeout is
    possible. *)
Theorem disconnect_final_when_closed now e s :
  map_Forall (fun _ r => r = CLOSED) (sockets s) ->
  map_Forall (fun handle _ => reconnectTimeoutRef s = Some handle) (timers s) ->
  Notions.unattended e = true ->
  step now e (disconnectWebSocket s) = None.
Proof.
  intros Hso Hti He.
  rewrite disconnectWebSocket_cells.
  assert (Esockets :
            match wsRef s with
            | Some ws =>
                match sockets s !! ws with
                | Some CONNECTING | Some OPEN => <[ws := CLOSING]> (sockets s)
                | _ => sockets s
                end
            | None => sockets s
            end = sockets s).
  { destruct (wsRef s) as [ws|]; [|reflexivity].
    destruct (sockets s !! ws) as [r|] eqn:Hws; [|reflexivity].
    rewrite (Hso ws r Hws). reflexivity. }
  rewrite Esockets.
  assert (Etimers : forall handle,
            match reconnectTimeoutRef s with
            | Some h => delete h (timers s)
            | None => timers s
            end !! handle = None).
  { intros handle.
    destruct (reconnectTimeoutRef s) as [h|] eqn:Href.
    - destruct (decide (h = handle)) as [-> | Hne];
        [apply lookup_delete_eq|].
      rewrite lookup_delete_ne by exact Hne.
      destruct (timers s !! handle) as [due|] eqn:Hh; [|reflexivity].
      specialize (Hti handle due Hh). congruence.
    - destruct (timers s !! handle) as [due|] eqn:Hh; [|reflexivity].
      specialize (Hti handle due Hh). discriminate. }
  destruct e; try discriminate He; unfold step; cbn [sockets timers].
  - destruct (sockets s !! ws) as [r|] eqn:Hws; [|reflexivity].
    rewrite (Hso ws r Hws). reflexivity.
  - destruct (sockets s !! ws) as [r|] eqn:Hws; [|reflexivity].
    rewrite (Hso ws r Hws). reflexivity.
  - destruct (sockets s !! ws) as [r|] eqn:Hws; [|reflexivity].
    rewrite (Hso ws r Hws). reflexivity.
  - destruct (sockets s !! ws) as [r|] eqn:Hws; [|reflexivity].
    rewrite (Hso ws r Hws). reflexivity.
  - rewrite Etimers. reflexivity.
Qed.

Lemma disconnect_final_when_closed_witness :
  step 3100 (TimerFires 1 false) (disconnectWebSocket Scenario.closedEarly)
  = None.
Proof.
  apply (disconnect_final_when_closed 3100 (TimerFires 1 false)
           Scenario.closedEarly).
  - apply map_Forall_to_list.
    assert (E : map_to_list (sockets Scenario.closedEarly) = [(0%nat, CLOSED)])
      by (vm_compute; reflexivity).
    rewrite E. repeat constructor.
  - apply map_Forall_to_list.
    assert (E : map_to_list (timers Scenario.closedEarly)
                = [(1%positive, 3100%N)])
      by (vm_compute; reflexivity).
    rewrite E. repeat constructor.
  - reflexivity.
Defined.

(** *** Reconnecting without end *)

Lemma retry_round t s ws :
  wsRef s = Some ws ->
  sockets s !! ws = Some CONNECTING ->
  timers s = ∅ ->
  exists s' ws',
    run t [((t + 10)%N, SocketClose ws);
           ((t + 3010)%N, TimerFires (nextTimer s) false)] s = Some s' /\
    wsRef s' = Some ws' /\ sockets s' !! ws' = Some CONNECTING /\
    timers s' = ∅ /\ isConnected s' = false /\
    size (sockets s') = S (size (sockets s)).
Proof.
  intros Href Hws Hti.
  destruct s as [co tr rt td cs w rr so ti nt se].
  cbv [wsRef sockets timers nextTimer] in *. subst w ti.
  assert (E1 : (t + 10 <? t)%N = false) by (apply N.ltb_ge; lia).
  assert (E2 : (t + 3010 <? t + 10)%N = false) by (apply N.ltb_ge; lia).
  assert (E3 : (t + 10 + 3000 <=? t + 3010)%N = true) by (apply N.leb_le; lia).
  cbn [run]. rewrite E1. unfold step at 1. cbn [sockets]. rewrite Hws.
  cbv [onclose setTimeout setIsConnected setIsTracking setConnectionStatus
       setReconnectTimeoutRef setNextTimer setTimers setSockets
       isConnected isTracking robotType trackingData connectionStatus wsRef
       reconnectTimeoutRef sockets timers nextTimer sent].
  rewrite E2. unfold step. cbn [timers]. rewrite lookup_insert_eq, E3.
  cbv [clearTimeout setTimers
       isConnected isTracking robotType trackingData connectionStatus wsRef
       reconnectTimeoutRef sockets timers nextTimer sent].
  unfold connectWebSocket, currentIsOpen. cbn [wsRef sockets].
  rewrite lookup_insert_eq.
  rewrite bool_decide_eq_false_2 by discriminate.
  cbv [setWsRef setSockets
       isConnected isTracking robotType trackingData connectionStatus wsRef
       reconnectTimeoutRef sockets timers nextTimer sent].
  eexists. exists (fresh (dom (<[ws := CLOSED]> so))).
  split; [reflexivity|]. cbn [wsRef sockets timers isConnected].
  split; [reflexivity|]. split; [apply lookup_insert_eq|].
  split; [rewrite delete_insert_eq; apply delete_empty|]. split; [reflexivity|].
  rewrite map_size_insert_None by (apply not_elem_of_dom, is_fresh).
  rewrite map_size_insert_Some by eauto. reflexivity.
Qed.

Lemma run_two t t1 e1 t2 e2 es s s1 :
  run t [(t1, e1); (t2, e2)] s = Some s1 ->
  run t ((t1, e1) :: (t2, e2) :: es) s = run t2 es s1.
Proof.
  cbn [run]. destruct (t1 <? t)%N; [discriminate|].
  destruct (step t1 e1 s) as [sa|]; [|discriminate].
  destruct (t2 <? t1)%N; [discriminate|].
  destruct (step t2 e2 sa) as [sb|]; [|discriminate].
  intros [= ->]. reflexivity.
Qed.

Lemma retry_rounds n : forall t s ws,
  wsRef s = Some ws ->
  sockets s !! ws = Some CONNECTING ->
  timers s = ∅ ->
  isConnected s = false ->
  exists es s',
    Forall (fun e => Notions.unattended e.2 = true) es /\
    length es = 2 * n /\
    run t es s = Some s' /\
    size (sockets s') = n + size (sockets s) /\
    timers s' = ∅ /\ isConnected s' = false.
Proof.
  induction n as [|n IH]; intros t s ws Href Hws Hti Hco.
  - exists [], s. repeat split; auto.
  - destruct (retry_round t s ws Href Hws Hti)
      as (s1 & ws1 & Hrun1 & Href1 & Hws1 & Hti1 & Hco1 & Hsize1).
    destruct (IH (t + 3010)%N s1 ws1 Href1 Hws1 Hti1 Hco1)
      as (es & s' & Hall & Hlen & Hrun & Hsize & Hti' & Hco').
    exists (((t + 10)%N, SocketClose ws)
            :: ((t + 3010)%N, TimerFires (nextTimer s) false) :: es), s'.
    split; [repeat constructor; exact Hall|].
    split; [cbn [length]; lia|].
    split; [rewrite (run_two _ _ _ _ _ es _ _ Hrun1); exact Hrun|].
    split; [lia|]. auto.
Qed.

(** X24.  Reconnection never gives up: after a single click on Connect,
    with a backend that never answers, for every [n] there is a run of
    [2 * n] events, none of them a click, after which [n + 1] sockets have
    been created, the component is still disconnected and no reconnect is
    pending (the last socket is still connecting). *)
Theorem reconnects_without_end n :
  exists es s,
    Forall (fun e => Notions.unattended e.2 = true) es /\
    length es = 2 * n /\
    run 0 ((0%N, ClickConnect false) :: es) init = Some s /\
    size (sockets s) = S n /\
    isConnected s = false /\
    pendingReconnects s = 0.
Proof.
  destruct (retry_rounds n 0%N (connectWebSocket false init) 0%nat
              eq_refl eq_refl eq_refl eq_refl)
    as (es & s & Hall & Hlen & Hrun & Hsize & Hti & Hco).
  exists es, s.
  split; [exact Hall|]. split; [exact Hlen|].
  split; [exact Hrun|].
  split.
  - rewrite Hsize.
    change (size (sockets (connectWebSocket false init))) with 1. lia.
  - split; [exact Hco|]. unfold pendingReconnects. rewrite Hti. reflexivity.
Qed.

End IntegrationMore.
